(** * opentelemetry-infinity: the [run] command of [cmd/main.go]

    A shallow embedding of [initConfig], of the configuration step of [Run],
    of the logger set up and of the start/stop/signal protocol between the
    main routine and the signal watcher, followed by the properties the
    specification states about them.

    The development has three parts:
    - [Strconv], [Viper] and [Mapstructure]: the library calls the resolver
      goes through, as far as [main.go] exercises them;
    - [Resolver] and [Logger]: lines 30-62 of [main.go];
    - [Lifecycle]: lines 63-103, two routines interleaved by a scheduler. *)

From Stdlib Require Import ZArith Ascii String List Lia Bool.
From stdpp Require Import base option strings gmap fin_maps pretty.

Import ListNotations.
Local Open Scope string_scope.
Local Open Scope Z_scope.

(** ** Byte level helpers *)

Module Bytes.

Definition code (c : ascii) : Z := Z.of_N (N_of_ascii c).

(** Go's [lower(c) = c | ('x' - 'X')]. *)
Definition lower (c : Z) : Z := Z.lor c 32.

Definition is_digit (c : Z) : bool := (48 <=? c) && (c <=? 57).

(** [strings.ToUpper], on the ASCII letters. *)
Definition upper_ascii (c : ascii) : ascii :=
  let n := code c in
  if (97 <=? n) && (n <=? 122) then ascii_of_N (Z.to_N (n - 32)) else c.

Fixpoint ToUpper (s : string) : string :=
  match s with
  | EmptyString => EmptyString
  | String c r => String (upper_ascii c) (ToUpper r)
  end.

(** [strings.NewReplacer(old, new).Replace] for one-byte [old] and [new]. *)
Fixpoint Replace (old new : ascii) (s : string) : string :=
  match s with
  | EmptyString => EmptyString
  | String c r =>
      String (if Ascii.eqb c old then new else c) (Replace old new r)
  end.

End Bytes.

(** ** strconv: the two parsers behind the weakly typed decoding *)

Module Strconv.
Import Bytes.

(** [strconv.ParseBool]. *)
Definition ParseBool (s : string) : option bool :=
  if (String.eqb s "1" || String.eqb s "t" || String.eqb s "T"
      || String.eqb s "TRUE" || String.eqb s "true" || String.eqb s "True")%bool
  then Some true
  else if (String.eqb s "0" || String.eqb s "f" || String.eqb s "F"
      || String.eqb s "FALSE" || String.eqb s "false" || String.eqb s "False")%bool
  then Some false
  else None.

Definition maxUint64 : Z := 2 ^ 64 - 1.

(** The digit loop of [strconv.ParseUint] at bit size 64. The result is
    the number read and whether an underscore was met; [None] is a syntax
    or range error. *)
Fixpoint digits (base0 : bool) (base : Z) (s : string) (n : Z) (us : bool)
  : option (Z * bool) :=
  match s with
  | EmptyString => Some (n, us)
  | String ch r =>
      let c := code ch in
      if (c =? 95) && base0 then digits base0 base r n true
      else
        let d :=
          if is_digit c then Some (c - 48)
          else if (97 <=? lower c) && (lower c <=? 122)
               then Some (lower c - 97 + 10)
               else None in
        match d with
        | None => None
        | Some d =>
            if base <=? d then None
            else if maxUint64 / base + 1 <=? n then None
            else
              let n := n * base in
              let n1 := (n + d) mod 2 ^ 64 in
              if n1 <? n then None else digits base0 base r n1 us
        end
  end.

Inductive Saw := SawStart | SawDigit | SawUnderscore | SawOther.

Definition saw_eqb (a b : Saw) : bool :=
  match a, b with
  | SawStart, SawStart | SawDigit, SawDigit
  | SawUnderscore, SawUnderscore | SawOther, SawOther => true
  | _, _ => false
  end.

Fixpoint underscoreLoop (hex : bool) (saw : Saw) (s : string) : bool :=
  match s with
  | EmptyString => negb (saw_eqb saw SawUnderscore)
  | String ch r =>
      let c := code ch in
      if (is_digit c || (hex && (97 <=? lower c) && (lower c <=? 102)))%bool
      then underscoreLoop hex SawDigit r
      else if c =? 95
           then if saw_eqb saw SawDigit then underscoreLoop hex SawUnderscore r
                else false
           else if saw_eqb saw SawUnderscore then false
                else underscoreLoop hex SawOther r
  end.

Definition is_base_letter (c : Z) : bool :=
  (lower c =? 98) || (lower c =? 111) || (lower c =? 120).

(** [strconv.underscoreOK]. *)
Definition underscoreOK (s : string) : bool :=
  let s :=
    match s with
    | String ch r => if (code ch =? 45) || (code ch =? 43) then r else s
    | EmptyString => s
    end in
  match s with
  | String c0 (String c1 r) =>
      if (code c0 =? 48) && is_base_letter (code c1)
      then underscoreLoop (lower (code c1) =? 120) SawDigit r
      else underscoreLoop false SawStart s
  | _ => underscoreLoop false SawStart s
  end.

(** [strconv.ParseUint(s, 0, 64)]. *)
Definition ParseUint (s : string) : option Z :=
  match s with
  | EmptyString => None
  | String c0 r0 =>
      let '(base, body) :=
        if code c0 =? 48 then
          match r0 with
          | String c1 (String c2 r2) =>
              if lower (code c1) =? 98 then (2, String c2 r2)
              else if lower (code c1) =? 111 then (8, String c2 r2)
              else if lower (code c1) =? 120 then (16, String c2 r2)
              else (8, r0)
          | _ => (8, r0)
          end
        else (10, s) in
      match digits true base body 0 false with
      | None => None
      | Some (n, us) => if us && negb (underscoreOK s) then None else Some n
      end
  end.

End Strconv.

(** ** viper: defaults, automatic environment and merged settings *)

Module Viper.
Import Bytes.

(** The values [main.go] stores under a key: the [bool], [int] and
    [string] defaults and the strings read from the environment. *)
Inductive Value :=
| VBool (b : bool)
| VInt (z : Z)
| VString (s : string).

(** A viper layer. Viper addresses every setting by its lower-case dotted
    key, and the nested maps it exchanges are keyed the same way level by
    level; a layer is kept here as the map from dotted key to value. *)
Abbreviation Settings := (gmap string Value).

(** The process environment, as [os.LookupEnv] reads it. *)
Abbreviation Environ := (gmap string string).

(** [v.getEnv] with the replacer of [initConfig] installed and
    [AllowEmptyEnv] left off: an empty variable counts as unset. *)
Definition getEnv (env : Environ) (key : string) : option string :=
  match env !! Replace "." "_" key with
  | Some v => if String.eqb v "" then None else Some v
  | None => None
  end.

(** [v.mergeWithEnvPrefix] with no prefix set. *)
Definition mergeWithEnvPrefix (key : string) : string := ToUpper key.

(** The name under which [AutomaticEnv] looks a key up: the key in upper
    case, dots replaced by underscores. *)
Definition envName (key : string) : string :=
  Replace "." "_" (mergeWithEnvPrefix key).

(** The dotted proper prefixes of a key, shortest first. *)
Fixpoint parents_from (acc : string) (s : string) : list string :=
  match s with
  | EmptyString => []
  | String c r =>
      if Ascii.eqb c "." then acc :: parents_from (acc ++ String c "") r
      else parents_from (acc ++ String c "") r
  end.

Definition parentKeys (key : string) : list string := parents_from "" key.

(** [v.isPathShadowedInAutoEnv]: a parent of the key is itself set in the
    environment. *)
Definition isPathShadowedInAutoEnv (env : Environ) (key : string) : bool :=
  existsb (fun p => bool_decide (is_Some (getEnv env (mergeWithEnvPrefix p))))
          (parentKeys key).

(** [v.Get] on a viper that only has [AutomaticEnv] and defaults. *)
Definition Get (env : Environ) (defaults : Settings) (key : string)
  : option Value :=
  match getEnv env (mergeWithEnvPrefix key) with
  | Some s => Some (VString s)
  | None =>
      if isPathShadowedInAutoEnv env key then None else defaults !! key
  end.

(** [v.AllSettings]: every known key with the value [Get] finds; keys
    whose value is nil are skipped. *)
Definition AllSettings (env : Environ) (defaults : Settings) : Settings :=
  map_imap (fun k _ => Get env defaults k) defaults.

(** [viper.MergeConfigMap]: the given map wins over what the global viper
    already holds; the call cannot fail. *)
Definition MergeConfigMap (cfg global : Settings) : Settings := cfg ∪ global.

End Viper.

(** ** mapstructure: weakly typed decoding into the configuration struct *)

Module Mapstructure.
Import Viper.

(** [decodeBool] with [WeaklyTypedInput] on, as viper configures it. *)
Definition decodeBool (v : Value) : option bool :=
  match v with
  | VBool b => Some b
  | VInt z => Some (negb (z =? 0))
  | VString s =>
      match Strconv.ParseBool s with
      | Some b => Some b
      | None => if String.eqb s "" then Some false else None
      end
  end.

(** [decodeUint] into a [uint64] field. *)
Definition decodeUint (v : Value) : option Z :=
  match v with
  | VInt z => Some (z mod 2 ^ 64)
  | VBool b => Some (if b then 1 else 0)
  | VString s => Strconv.ParseUint (if String.eqb s "" then "0" else s)
  end.

(** [decodeString]. *)
Definition decodeString (v : Value) : option string :=
  match v with
  | VString s => Some s
  | VBool b => Some (if b then "1" else "0")
  | VInt z => Some (pretty z)
  end.

(** One struct field: a key absent from the input leaves the field as it
    is, a key that is present overwrites it or fails to decode. *)
Definition field {A} (dec : Value -> option A) (m : Settings) (key : string)
    (cur : A) : option A :=
  match m !! key with
  | None => Some cur
  | Some v => dec v
  end.

End Mapstructure.

(** ** The configuration object *)

Module config.

Record OtlpInfCfg := {
  Debug : bool;
  ServerHost : string;
  ServerPort : Z
}.

Record Config := {
  Version : string;
  OtlpInf : OtlpInfCfg
}.

(** The settings key each field of [Config.OtlpInf] is decoded from, in
    lower case as viper keeps its keys. *)
Record Keys := {
  key_debug : string;
  key_server_host : string;
  key_server_port : string
}.

(** Modelled from the spec: the declaration of [config.Config] (package
    [config], its struct tags) is not part of [cmd/main.go]. The spec names
    the configuration keys [otlp_inf.debug], and [initConfig] registers
    [otlp_inf.server_host] and [otlp_inf.server_port] next to it. *)
Definition keys : Keys := {|
  key_debug := "otlp_inf.debug";
  key_server_host := "otlp_inf.server_host";
  key_server_port := "otlp_inf.server_port"
|}.

End config.

(** ** Configuration Resolver: [initConfig] and lines 30-45 of [Run] *)

Module Resolver.
Import Viper Mapstructure config.

(** What the command line set: [None] is a flag that was not given. *)
Record Flags := {
  debug : option bool;
  server_host : option string;
  server_port : option Z
}.

Definition no_flags : Flags :=
  {| debug := None; server_host := None; server_port := None |}.

(** The package variables after cobra parsed the command line (lines
    130-132): the flag's value, or the default of its declaration. *)
Definition Debug (f : Flags) : bool := default false (debug f).
Definition ServerHost (f : Flags) : string := default "localhost" (server_host f).
Definition ServerPort (f : Flags) : Z := default 10222 (server_port f).

(** The three [v.SetDefault] calls. *)
Definition defaults : Settings :=
  <["otlp_inf.server_port" := VInt 10222]>
    (<["otlp_inf.server_host" := VString "localhost"]>
      (<["otlp_inf.debug" := VBool false]> ∅)).

(** [initConfig]: the settings of the local viper merged into the global
    one. [MergeConfigMap] returns no error, so [cobra.CheckErr] passes. *)
Definition initConfig (env : Environ) (global : Settings) : Settings :=
  MergeConfigMap (AllSettings env defaults) global.

(** [viper.Unmarshal(&config)] on the global viper, which has neither
    environment nor defaults of its own: its settings are the merged map. *)
Definition Unmarshal (k : Keys) (global : Settings) (c : Config)
  : option Config :=
  d ← field decodeBool global (key_debug k) (config.Debug (OtlpInf c));
  h ← field decodeString global (key_server_host k) (config.ServerHost (OtlpInf c));
  p ← field decodeUint global (key_server_port k) (config.ServerPort (OtlpInf c));
  Some {| Version := Version c;
          OtlpInf := {| config.Debug := d; config.ServerHost := h;
                        config.ServerPort := p |} |}.

(** Lines 32-45 of [Run]; [None] is the decode error that ends the process
    with status 1. *)
Definition resolve_with (k : Keys) (version : string) (env : Environ)
    (f : Flags) : option Config :=
  let global := initConfig env ∅ in
  let c := {| Version := version;
              OtlpInf := {| config.Debug := Debug f;
                            config.ServerHost := ServerHost f;
                            config.ServerPort := ServerPort f |} |} in
  Unmarshal k global c.

Definition resolve : string -> Environ -> Flags -> option Config :=
  resolve_with config.keys.

Definition port_of (o : option Config) : option Z :=
  (fun c => config.ServerPort (OtlpInf c)) <$> o.

Definition debug_of (o : option Config) : option bool :=
  (fun c => config.Debug (OtlpInf c)) <$> o.

(** The keys [initConfig] registers a default for. *)
Definition registered (k : string) : Prop :=
  k = "otlp_inf.debug" \/ k = "otlp_inf.server_host"
  \/ k = "otlp_inf.server_port".

(** Keys that match nothing viper holds, as a [Config] whose struct tags
    differ from the viper keys would have. *)
Definition unmatched_keys : Keys :=
  {| key_debug := "debug"; key_server_host := "serverhost";
     key_server_port := "serverport" |}.

(** The configuration made of the defaults alone. *)
Definition default_config (version : string) : Config :=
  {| Version := version;
     OtlpInf := {| config.Debug := false; config.ServerHost := "localhost";
                   config.ServerPort := 10222 |} |}.

(** The configuration lines 36-39 build from the flag variables. *)
Definition flag_config (version : string) (f : Flags) : Config :=
  {| Version := version;
     OtlpInf := {| config.Debug := Debug f; config.ServerHost := ServerHost f;
                   config.ServerPort := ServerPort f |} |}.

(** None of the three variables of [initConfig] is set. *)
Definition no_variable (env : Environ) : Prop :=
  env !! envName "otlp_inf.debug" = None
  /\ env !! envName "otlp_inf.server_host" = None
  /\ env !! envName "otlp_inf.server_port" = None.

End Resolver.

(** ** Logger Factory: lines 48-62 of [Run] *)

Module Zap.

Inductive Level :=
| DebugLevel | InfoLevel | WarnLevel | ErrorLevel
| DPanicLevel | PanicLevel | FatalLevel.

(** zapcore's numbering of the levels. *)
Definition rank (l : Level) : Z :=
  match l with
  | DebugLevel => -1 | InfoLevel => 0 | WarnLevel => 1 | ErrorLevel => 2
  | DPanicLevel => 3 | PanicLevel => 4 | FatalLevel => 5
  end.

(** [Level.Enabled]: a record at level [l] passes a core at level [min]. *)
Definition Enabled (min l : Level) : bool := rank min <=? rank l.

End Zap.

Module Logger.
Import Zap.

(** The level set on [atomicLevel] at lines 50-54. *)
Definition atomicLevel (f : Resolver.Flags) : Level :=
  if Resolver.Debug f then DebugLevel else InfoLevel.

End Logger.

(** ** Lifecycle Coordinator: lines 63-103 of [Run] *)

Module Lifecycle.
Import Zap.

(** The signals the Go runtime can hand to a channel registered with
    [signal.Notify]. [SIGKILL] is listed at line 80 but the kernel never
    delivers it to a handler, so it is never relayed. *)
Inductive Signal := SIGINT | SIGTERM.

(** The service of package [otlpinf], an external collaborator. [main.go]
    sees of it whether [New] and [Start] return an error, and it hands
    [Start] the cancel function of the root context (line 96), which
    [Start] may call before it returns. [Start] either returns at once or,
    as a blocking service, once the root context is cancelled. [Stop]
    returns nothing and is taken to return. The service may also keep the
    cancel function and call it later, from [Stop] or from a routine of
    its own: that is a move of its own in the open schedules below
    ([LServiceCancel]), not a field of this record. *)
Record Service := {
  New_err : option string;
  Start_cancels : bool;
  Start_blocks : bool;
  Start_err : option string
}.

(** Who performs an action: the main routine, the watcher, or code of the
    service running after [Start] was called, in [Stop] or on a routine
    of its own. *)
Inductive Routine := Main | Watcher | ServiceSide.

Inductive Action :=
| AStderr (msg : string)              (* cobra.CheckErr prints the error *)
| ANew (c : config.Config)            (* otlpinf.New(logger, &config) *)
| ALog (l : Level) (msg : string)     (* logger.Warn / logger.Error *)
| ANotify                             (* signal.Notify(sigs, ...) *)
| AStartCall (live : bool)            (* a.Start(rootCtx, cancelFunc) *)
| AStartRet (err : option string)     (* ... and its result *)
| AStop (live : bool)                 (* a.Stop(rootCtx) *)
| ACancel                             (* cancelFunc() *)
| ADoneWrite                          (* done <- true *)
| ADoneRead                           (* <-done *)
| ASync                               (* the deferred logger.Sync() *)
| AExit (code : Z).                   (* the process ends *)

Record Event := Ev { who : Routine; act : Action }.

(** How the process ended. *)
Inductive Exit := ExConfigError | ExNewError | ExStartError | ExClean.

Definition exit_code (x : Exit) : Z :=
  match x with ExClean => 0 | _ => 1 end.

(** Program points of the main routine from line 96 on. *)
Inductive MainPc :=
| MCallStart        (* about to call a.Start *)
| MStartBody        (* inside Start *)
| MStartRet         (* Start about to return *)
| MLogErr           (* line 98 *)
| MOsExit           (* line 99 *)
| MWaitDone         (* line 102 *)
| MDeferred         (* Run returns: the deferred call of lines 63-65 *)
| MReturn           (* main returns *)
| MHalted (x : Exit).

(** Program points of the goroutine of lines 78-93. *)
Inductive WatchPc :=
| WInit             (* lines 79-80 *)
| WSelect           (* line 82 *)
| WWarnSig          (* line 84 *)
| WStop             (* line 85 *)
| WCancel           (* line 86 *)
| WWarnDone         (* line 88 *)
| WSend             (* line 89 *)
| WReturned.        (* line 90 *)

Record State := {
  mpc : MainPc;
  wpc : WatchPc;
  logger : option Level;      (* the level of the logger, once built *)
  cancelled : bool;           (* rootCtx.Done() is closed *)
  sigs : option Signal;       (* make(chan os.Signal, 1) *)
  done : option bool;         (* make(chan bool, 1) *)
  trace : list Event
}.

Definition exited (st : State) : option Z :=
  match mpc st with
  | MHalted x => Some (exit_code x)
  | _ => None
  end.

Definition emit (r : Routine) (a : Action) (st : State) : State :=
  {| mpc := mpc st; wpc := wpc st; logger := logger st;
     cancelled := cancelled st; sigs := sigs st; done := done st;
     trace := trace st ++ [Ev r a] |}.

Definition main_goto (pc : MainPc) (st : State) : State :=
  {| mpc := pc; wpc := wpc st; logger := logger st;
     cancelled := cancelled st; sigs := sigs st; done := done st;
     trace := trace st |}.

Definition watch_goto (pc : WatchPc) (st : State) : State :=
  {| mpc := mpc st; wpc := pc; logger := logger st;
     cancelled := cancelled st; sigs := sigs st; done := done st;
     trace := trace st |}.

Definition cancel (st : State) : State :=
  {| mpc := mpc st; wpc := wpc st; logger := logger st;
     cancelled := true; sigs := sigs st; done := done st;
     trace := trace st |}.

Definition set_sigs (c : option Signal) (st : State) : State :=
  {| mpc := mpc st; wpc := wpc st; logger := logger st;
     cancelled := cancelled st; sigs := c; done := done st;
     trace := trace st |}.

Definition set_done (c : option bool) (st : State) : State :=
  {| mpc := mpc st; wpc := wpc st; logger := logger st;
     cancelled := cancelled st; sigs := sigs st; done := c;
     trace := trace st |}.

(** [os.Exit(code)], or [main] returning: the process is gone, and with
    it the watcher. Deferred calls are not run by [os.Exit]. *)
Definition halt (x : Exit) (st : State) : State :=
  main_goto (MHalted x) (emit Main (AExit (exit_code x)) st).

(** Lines 30-77: everything [Run] does before the watcher exists. *)
Definition boot (version : string) (env : Viper.Environ)
    (f : Resolver.Flags) (svc : Service) : State :=
  let st0 := {| mpc := MCallStart; wpc := WInit; logger := None;
                cancelled := false; sigs := None; done := None;
                trace := [] |} in
  match Resolver.resolve version env f with
  | None =>
      halt ExConfigError
        (emit Main (AStderr "opentelemetry-infinity start up error (config)") st0)
  | Some c =>
      let st1 := {| mpc := MCallStart; wpc := WInit;
                    logger := Some (Logger.atomicLevel f);
                    cancelled := false; sigs := None; done := None;
                    trace := [Ev Main (ANew c)] |} in
      match New_err svc with
      | Some _ =>
          halt ExNewError
            (emit Main (ALog ErrorLevel "otlpinf start up error") st1)
      | None => st1
      end
  end.

(** One step of the main routine, lines 96-103. *)
Definition main_step (svc : Service) (st : State) : option State :=
  match mpc st with
  | MCallStart =>
      Some (main_goto MStartBody
              (emit Main (AStartCall (negb (cancelled st))) st))
  | MStartBody =>
      Some (main_goto MStartRet
              (if Start_cancels svc then emit Main ACancel (cancel st) else st))
  | MStartRet =>
      if Start_blocks svc && negb (cancelled st) then None
      else Some (main_goto
                   (match Start_err svc with
                    | Some _ => MLogErr
                    | None => MWaitDone
                    end)
                   (emit Main (AStartRet (Start_err svc)) st))
  | MLogErr =>
      Some (main_goto MOsExit
              (emit Main (ALog ErrorLevel "otlpinf startup error") st))
  | MOsExit => Some (halt ExStartError st)
  | MWaitDone =>
      match done st with
      | Some _ => Some (main_goto MDeferred (emit Main ADoneRead (set_done None st)))
      | None => None
      end
  | MDeferred => Some (main_goto MReturn (emit Main ASync st))
  | MReturn => Some (halt ExClean st)
  | MHalted _ => None
  end.

(** One step of the watcher outside its [select]. *)
Definition watch_step (st : State) : option State :=
  match wpc st with
  | WInit => Some (watch_goto WSelect (emit Watcher ANotify st))
  | WWarnSig =>
      Some (watch_goto WStop
              (emit Watcher (ALog WarnLevel "stop signal received, stopping otlpinf") st))
  | WStop =>
      Some (watch_goto WCancel (emit Watcher (AStop (negb (cancelled st))) st))
  | WCancel => Some (watch_goto WSelect (emit Watcher ACancel (cancel st)))
  | WWarnDone =>
      Some (watch_goto WSend
              (emit Watcher (ALog WarnLevel "mainRoutine context cancelled") st))
  | WSend =>
      match done st with
      | None => Some (watch_goto WReturned (emit Watcher ADoneWrite (set_done (Some true) st)))
      | Some _ => None
      end
  | WSelect | WReturned => None
  end.

(** The [select] of line 82 takes [case <-sigs] ... *)
Definition select_sig (st : State) : option State :=
  match wpc st, sigs st with
  | WSelect, Some _ => Some (watch_goto WWarnSig (set_sigs None st))
  | _, _ => None
  end.

(** ... or [case <-rootCtx.Done()]; with both ready either may be taken. *)
Definition select_done (st : State) : option State :=
  match wpc st with
  | WSelect => if cancelled st then Some (watch_goto WWarnDone st) else None
  | _ => None
  end.

(** The runtime relays a signal to the registered channel; it does not
    block, a signal that finds the buffer full is dropped. *)
Definition relay (s : Signal) (st : State) : option State :=
  match wpc st with
  | WInit => None
  | _ => Some (match sigs st with
               | None => set_sigs (Some s) st
               | Some _ => st
               end)
  end.

(** What the scheduler may do next. *)
Inductive Label :=
| LRelay (s : Signal)
| LMain
| LWatch
| LSelectSig
| LSelectDone.

Definition step (svc : Service) (l : Label) (st : State) : option State :=
  match mpc st with
  | MHalted _ => None
  | _ =>
      match l with
      | LRelay s => relay s st
      | LMain => main_step svc st
      | LWatch => watch_step st
      | LSelectSig => select_sig st
      | LSelectDone => select_done st
      end
  end.

Fixpoint run_from (svc : Service) (st : State) (ls : list Label)
  : option State :=
  match ls with
  | [] => Some st
  | l :: ls' =>
      match step svc l st with
      | Some st' => run_from svc st' ls'
      | None => None
      end
  end.

(** [Run] under a schedule. *)
Definition run (version : string) (env : Viper.Environ)
    (f : Resolver.Flags) (svc : Service) (ls : list Label) : option State :=
  run_from svc (boot version env f svc) ls.

(** *** Open schedules: the service holds the cancel function

    Line 96 passes [cancelFunc] to [a.Start]. From then on the service
    can call it whenever it likes, inside [Stop] or on a routine of its
    own; [main.go] has no say in it. An open schedule adds that move to
    the moves of [step]. *)

Inductive OpenLabel :=
| Sched (l : Label)
| LServiceCancel.

(** The cancel function has been handed over: [Start] has been called. *)
Definition handed (pc : MainPc) : bool :=
  match pc with
  | MCallStart | MHalted _ => false
  | _ => true
  end.

Definition service_cancel (st : State) : option State :=
  if handed (mpc st) then Some (emit ServiceSide ACancel (cancel st))
  else None.

Definition open_step (svc : Service) (ol : OpenLabel) (st : State)
  : option State :=
  match ol with
  | Sched l => step svc l st
  | LServiceCancel => service_cancel st
  end.

Fixpoint open_run_from (svc : Service) (st : State) (ols : list OpenLabel)
  : option State :=
  match ols with
  | [] => Some st
  | ol :: ols' =>
      match open_step svc ol st with
      | Some st' => open_run_from svc st' ols'
      | None => None
      end
  end.

(** [Run] under an open schedule. *)
Definition open_run (version : string) (env : Viper.Environ)
    (f : Resolver.Flags) (svc : Service) (ols : list OpenLabel)
  : option State :=
  open_run_from svc (boot version env f svc) ols.

(** A schedule of [step] as an open schedule. *)
Definition sched (ls : list Label) : list OpenLabel := List.map Sched ls.

(** Moves that bring neither a new signal nor a cancellation by the
    service. *)
Definition calm (ol : OpenLabel) : bool :=
  match ol with
  | Sched (LRelay _) | LServiceCancel => false
  | Sched _ => true
  end.

(** *** Observations on a trace *)

Definition is_stop (e : Event) : bool :=
  match act e with AStop _ => true | _ => false end.
Definition is_cancel (e : Event) : bool :=
  match act e with ACancel => true | _ => false end.
Definition is_done_write (e : Event) : bool :=
  match act e with ADoneWrite => true | _ => false end.
Definition is_done_read (e : Event) : bool :=
  match act e with ADoneRead => true | _ => false end.
Definition is_sync (e : Event) : bool :=
  match act e with ASync => true | _ => false end.
Definition is_exit (e : Event) : bool :=
  match act e with AExit _ => true | _ => false end.
Definition is_start_error (e : Event) : bool :=
  match act e with AStartRet (Some _) => true | _ => false end.
Definition is_error_log (e : Event) : bool :=
  match act e with ALog ErrorLevel _ => true | _ => false end.
Definition by_watcher (e : Event) : bool :=
  match who e with Watcher => true | _ => false end.

(** The events of the shutdown protocol. *)
Definition is_shutdown (e : Event) : bool :=
  is_stop e || is_cancel e || is_done_write e || is_exit e.

Definition count (p : Event -> bool) (t : list Event) : nat :=
  length (List.filter p t).

Definition is_relay (l : Label) : bool :=
  match l with LRelay _ => true | _ => false end.

(** Program points of the watcher past [case <-rootCtx.Done()]. *)
Definition saw_done (pc : WatchPc) : bool :=
  match pc with
  | WWarnDone | WSend | WReturned => true
  | _ => false
  end.

(** Program points of the watcher inside [case <-sigs]. *)
Definition in_signal_case (pc : WatchPc) : bool :=
  match pc with
  | WWarnSig | WStop | WCancel => true
  | _ => false
  end.

(** Program points of the main routine at which [Start] has been invoked
    and has not returned an error. *)
Definition started (pc : MainPc) : bool :=
  match pc with
  | MStartBody | MStartRet | MWaitDone => true
  | _ => false
  end.

(** The spec's state Running: [Start] has been invoked, the watcher is at
    its [select] and the root context is live. *)
Definition Running (st : State) : Prop :=
  started (mpc st) = true /\ wpc st = WSelect /\ cancelled st = false.

(** Which routine may perform which action of the protocol; [Start]
    cancels only when the service uses the function it was handed. *)
Definition role_ok (svc : Service) (e : Event) : Prop :=
  match act e with
  | ACancel => who e = Watcher \/ (who e = Main /\ Start_cancels svc = true)
  | AStop _ | ADoneWrite => who e = Watcher
  | ADoneRead => who e = Main
  | _ => True
  end.

(** The same under open schedules: a cancellation is the watcher's, or
    the service's, inside [Start] or later. *)
Definition open_role_ok (svc : Service) (e : Event) : Prop :=
  match act e with
  | ACancel =>
      who e = Watcher
      \/ (who e = Main /\ Start_cancels svc = true)
      \/ who e = ServiceSide
  | AStop _ | ADoneWrite => who e = Watcher
  | ADoneRead => who e = Main
  | _ => True
  end.

(** A cancellation that is not the watcher's. *)
Definition is_foreign_cancel (e : Event) : bool :=
  is_cancel e && negb (by_watcher e).

(** The schedule of an orderly shutdown once the signal has been taken. *)
Definition shutdown_schedule : list Label :=
  [LWatch; LWatch; LWatch; LSelectDone; LWatch; LWatch; LMain; LMain; LMain].

(** The protocol events of an orderly shutdown. *)
Definition protocol : list Event :=
  [Ev Watcher (AStop true); Ev Watcher ACancel; Ev Watcher ADoneWrite;
   Ev Main (AExit 0)].

(** Schedules used as examples. [startup] runs [Start] to its return
    and registers the watcher. *)
Definition startup : list Label := [LMain; LMain; LMain; LWatch].

Definition one_signal : list Label :=
  (startup ++ [LRelay SIGINT; LSelectSig] ++ shutdown_schedule)%list.

(** A second signal arrives while the first is being handled, and the
    [select] takes it before the [Done] case. *)
Definition two_signals : list Label :=
  (startup ++ [LRelay SIGINT; LSelectSig; LWatch; LRelay SIGTERM; LWatch;
               LWatch; LSelectSig] ++ shutdown_schedule)%list.

(** The signal arrives while [Start] is running, before it returns its
    error. *)
Definition signal_during_startup : list Label :=
  [LWatch; LMain; LRelay SIGINT; LSelectSig; LWatch; LWatch;
   LMain; LMain; LMain; LMain].

(** A blocking [Start]: the signal arrives while it runs, and it returns
    once the context is cancelled. *)
Definition blocking : Service :=
  {| New_err := None; Start_cancels := false; Start_blocks := true;
     Start_err := None |}.

(** A blocking [Start] that returns an error once it is told to stop. *)
Definition blocking_failing : Service :=
  {| New_err := None; Start_cancels := false; Start_blocks := true;
     Start_err := Some "server closed" |}.

(** After the signal was taken: [Stop], the cancellation, then [Start]
    returns its error and line 99 ends the process. *)
Definition failure_after_stop : list Label :=
  [LWatch; LWatch; LWatch; LMain; LMain; LMain].

(** After the first signal was taken a second one arrives, and the
    [select] takes it before the [Done] case. *)
Definition second_signal : list Label :=
  ([LWatch; LRelay SIGTERM; LWatch; LWatch; LSelectSig]
   ++ [LWatch; LWatch; LWatch; LSelectDone; LWatch; LWatch;
       LMain; LMain; LMain])%list.

Definition signal_while_blocked : list Label :=
  [LMain; LMain; LWatch; LRelay SIGTERM].

Definition shutdown_of_blocked : list Label :=
  [LWatch; LWatch; LWatch; LMain; LSelectDone; LWatch; LWatch;
   LMain; LMain; LMain].

(** The main routine alone, up to [os.Exit(1)] at line 99. *)
Definition startup_failure : list Label := [LMain; LMain; LMain; LMain; LMain].

(** No signal at all: the service cancels, the watcher sees [Done]. *)
Definition cancelled_by_service : list Label :=
  (startup ++ [LSelectDone; LWatch; LWatch; LMain; LMain; LMain])%list.

(** No signal at all: once [Start] has returned, the service calls the
    cancel function it has kept, and the watcher sees [Done]. *)
Definition cancelled_later : list OpenLabel :=
  (sched startup ++ [LServiceCancel]
   ++ sched [LSelectDone; LWatch; LWatch; LMain; LMain; LMain])%list.

(** The watcher at line 89, about to send. *)
Definition before_send : list Label :=
  (startup ++ [LRelay SIGINT; LSelectSig; LWatch; LWatch; LWatch;
               LSelectDone; LWatch])%list.

(** The service whose start-up succeeds at once. *)
Definition healthy : Service :=
  {| New_err := None; Start_cancels := false; Start_blocks := false;
     Start_err := None |}.

(** A service whose [Start] fails. *)
Definition failing : Service :=
  {| New_err := None; Start_cancels := false; Start_blocks := false;
     Start_err := Some "listen: address already in use" |}.

(** A service whose [New] fails. *)
Definition unbuildable : Service :=
  {| New_err := Some "invalid configuration"; Start_cancels := false;
     Start_blocks := false; Start_err := None |}.

(** A service whose [Start] calls the cancel function it is handed. *)
Definition self_cancelling : Service :=
  {| New_err := None; Start_cancels := true; Start_blocks := false;
     Start_err := None |}.

(** *** Further observations *)

Definition is_log (e : Event) : bool :=
  match act e with ALog _ _ => true | _ => false end.
Definition is_new (e : Event) : bool :=
  match act e with ANew _ => true | _ => false end.
Definition is_notify (e : Event) : bool :=
  match act e with ANotify => true | _ => false end.
Definition is_start_call (e : Event) : bool :=
  match act e with AStartCall _ => true | _ => false end.
Definition is_live_stop (e : Event) : bool :=
  match act e with AStop true => true | _ => false end.

(** The signals a schedule relays. *)
Definition relays (ls : list Label) : nat := length (List.filter is_relay ls).

(** The signals the watcher has accepted and not yet answered with
    [Stop]: the one in the buffer and the one just taken from it. *)
Definition pending (st : State) : nat :=
  ((if sigs st is Some _ then 1 else 0)
   + (match wpc st with WWarnSig | WStop => 1 | _ => 0 end))%nat.

(** Program points of the main routine past [<-done]. *)
Definition past_read (pc : MainPc) : bool :=
  match pc with
  | MDeferred | MReturn | MHalted ExClean => true
  | _ => false
  end.

End Lifecycle.

(** * Properties *)

(** ** The resolver *)

Section ResolverFacts.
Import Bytes Viper Mapstructure config Resolver.

Lemma initConfig_lookup (env : Environ) (k : string) :
  initConfig env ∅ !! k = defaults !! k ≫= (fun _ => Get env defaults k).
Proof.
  unfold initConfig, MergeConfigMap, AllSettings.
  rewrite (right_id_L ∅ (∪)). apply map_lookup_imap.
Qed.

Lemma getEnv_upper (env : Environ) (k : string) :
  getEnv env (mergeWithEnvPrefix k) =
  match env !! envName k with
  | Some v => if String.eqb v "" then None else Some v
  | None => None
  end.
Proof. reflexivity. Qed.

(** The three keys of [initConfig] have the one parent [otlp_inf]. *)
Lemma shadow_registered (env : Environ) (k : string) :
  registered k ->
  isPathShadowedInAutoEnv env k = bool_decide (is_Some (getEnv env "OTLP_INF")).
Proof.
  intros [-> | [-> | ->]]; unfold isPathShadowedInAutoEnv;
    (match goal with
     | |- context [parentKeys ?k] => change (parentKeys k) with ["otlp_inf"]
     end);
    cbn [existsb]; rewrite orb_false_r; reflexivity.
Qed.

Lemma registered_default (k : string) :
  registered k -> is_Some (defaults !! k).
Proof. intros [-> | [-> | ->]]; vm_compute; eauto. Qed.

(** A registered key whose variable is set reads the variable. *)
Lemma setting_from_env (env : Environ) (k s : string) :
  registered k -> env !! envName k = Some s -> s <> "" ->
  initConfig env ∅ !! k = Some (VString s).
Proof.
  intros Hk He Hs. rewrite initConfig_lookup.
  destruct (registered_default k Hk) as [d ->]. cbn [mbind option_bind].
  unfold Get. rewrite getEnv_upper, He.
  destruct (String.eqb_spec s ""); [contradiction | reflexivity].
Qed.

(** Unless [OTLP_INF] itself is set, every registered key is present in
    the merged settings. *)
Lemma setting_present (env : Environ) (k : string) :
  registered k -> getEnv env "OTLP_INF" = None ->
  is_Some (initConfig env ∅ !! k).
Proof.
  intros Hk Hp. rewrite initConfig_lookup.
  destruct (registered_default k Hk) as [d Hd]. rewrite Hd.
  cbn [mbind option_bind]. unfold Get.
  destruct (getEnv env (mergeWithEnvPrefix k)); [eauto |].
  rewrite (shadow_registered env k Hk), Hp.
  rewrite bool_decide_eq_false_2 by (intros [? ?]; discriminate).
  rewrite Hd; eauto.
Qed.

(** With every key present, [Unmarshal] overwrites all three fields: the
    values the flags put there do not survive. *)
Lemma resolve_ignores_flags (ver : string) (env : Environ) (f f' : Flags) :
  getEnv env "OTLP_INF" = None ->
  resolve ver env f = resolve ver env f'.
Proof.
  intros Hp. unfold resolve, resolve_with, Unmarshal, field.
  cbn [keys key_debug key_server_host key_server_port Version OtlpInf
       config.Debug config.ServerHost config.ServerPort].
  destruct (setting_present env "otlp_inf.debug") as [d ->];
    [left; reflexivity | assumption |].
  destruct (setting_present env "otlp_inf.server_host") as [h ->];
    [right; left; reflexivity | assumption |].
  destruct (setting_present env "otlp_inf.server_port") as [p ->];
    [right; right; reflexivity | assumption |].
  reflexivity.
Qed.

(** What a successful [Unmarshal] says about each field. *)
Lemma Unmarshal_fields (k : Keys) (g : Settings) (c0 c : Config) :
  Unmarshal k g c0 = Some c ->
  field decodeBool g (key_debug k) (config.Debug (OtlpInf c0))
    = Some (config.Debug (OtlpInf c))
  /\ field decodeString g (key_server_host k) (config.ServerHost (OtlpInf c0))
    = Some (config.ServerHost (OtlpInf c))
  /\ field decodeUint g (key_server_port k) (config.ServerPort (OtlpInf c0))
    = Some (config.ServerPort (OtlpInf c))
  /\ Version c = Version c0.
Proof.
  unfold Unmarshal. intros H.
  apply bind_Some in H as (d & Hd & H).
  apply bind_Some in H as (h & Hh & H).
  apply bind_Some in H as (p & Hp & H).
  injection H as <-. cbn. auto.
Qed.

End ResolverFacts.

(** ** Claims on the Configuration Resolver and the Logger Factory *)

Section ResolverClaims.
Import Bytes Viper Mapstructure config Resolver Zap.

(** C1 (precedence flag, then environment, then default). The code does
    not give the flag precedence: run with [-p 8080] and an empty
    environment, the resolved [ServerPort] is the default 10222, because
    [viper.Unmarshal] overwrites the value line 39 took from the flag with
    the default viper holds for the key. The same happens to [-d] and
    [-a]. *)
Theorem C1_flag_value_overwritten :
  port_of (resolve "1.0" ∅
             {| debug := None; server_host := None; server_port := Some 8080 |})
    = Some 10222
  /\ debug_of (resolve "1.0" ∅
             {| debug := Some true; server_host := None; server_port := None |})
    = Some false.
Proof. split; vm_compute; reflexivity. Qed.

(** Had the struct tags of [Config] matched no viper key, the flags would
    survive and the environment would be lost instead. *)
Lemma unmatched_keys_ignore_environment :
  port_of (resolve_with unmatched_keys "1.0"
             {[ "OTLP_INF_SERVER_PORT" := "9000" ]} no_flags) = Some 10222.
Proof. vm_compute; reflexivity. Qed.

(** C6, as stated, fails: [SERVER_PORT] is not the variable the resolver
    reads, and with [SERVER_PORT=9000] and no flag the port is 10222. *)
Lemma C6_server_port_variable_not_read :
  port_of (resolve "1.0" {[ "SERVER_PORT" := "9000" ]} no_flags) = Some 10222
  /\ port_of (resolve "1.0" {[ "SERVER_PORT" := "9000" ]} no_flags) <> Some 9000.
Proof. split; [vm_compute; reflexivity | vm_compute; discriminate]. Qed.

(** C6, amended. The variable of a key is the key in upper case with dots
    replaced by underscores, [OTLP_INF_SERVER_PORT] for the port. With no
    flag given, a value of that variable that reads as an unsigned number
    is the resolved port, and with that variable unset the port is
    10222. *)
Theorem C6_environment_overrides_default
    (ver : string) (env : Environ) (c : Config) :
  resolve ver env no_flags = Some c ->
  envName "otlp_inf.server_port" = "OTLP_INF_SERVER_PORT"
  /\ (forall s v, env !! envName "otlp_inf.server_port" = Some s ->
                  Strconv.ParseUint s = Some v ->
                  config.ServerPort (OtlpInf c) = v)
  /\ (env !! envName "otlp_inf.server_port" = None ->
      config.ServerPort (OtlpInf c) = 10222).
Proof.
  intros Hr. split; [reflexivity |].
  apply Unmarshal_fields in Hr as (_ & _ & Hp & _).
  unfold field in Hp.
  change (key_server_port keys) with "otlp_inf.server_port" in Hp.
  split.
  - intros s v He Hv.
    assert (Hs : s <> "") by (intros ->; discriminate).
    rewrite (setting_from_env env "otlp_inf.server_port" s
               (or_intror (or_intror eq_refl)) He Hs) in Hp.
    unfold decodeUint in Hp.
    destruct (String.eqb_spec s ""); [contradiction |].
    congruence.
  - intros He.
    assert (Hd : defaults !! "otlp_inf.server_port" = Some (VInt 10222))
      by (vm_compute; reflexivity).
    rewrite initConfig_lookup, Hd in Hp. cbn [mbind option_bind] in Hp.
    unfold Get in Hp. rewrite getEnv_upper, He, Hd in Hp.
    destruct (isPathShadowedInAutoEnv env "otlp_inf.server_port");
      injection Hp as <-; reflexivity.
Qed.

Lemma C6_environment_overrides_default_witness :
  port_of (resolve "1.0" {[ "OTLP_INF_SERVER_PORT" := "9000" ]} no_flags)
    = Some 9000
  /\ port_of (resolve "1.0" {[ "HOME" := "/root" ]} no_flags) = Some 10222.
Proof.
  split.
  - destruct (resolve "1.0" {[ "OTLP_INF_SERVER_PORT" := "9000" ]} no_flags)
      as [c |] eqn:Hr; [| vm_compute in Hr; discriminate].
    cbn [port_of fmap option_fmap option_map]. f_equal.
    apply (C6_environment_overrides_default _ _ _ Hr) with (s := "9000");
      vm_compute; reflexivity.
  - destruct (resolve "1.0" {[ "HOME" := "/root" ]} no_flags) as [c |] eqn:Hr;
      [| vm_compute in Hr; discriminate].
    cbn [port_of fmap option_fmap option_map]. f_equal.
    apply (C6_environment_overrides_default _ _ _ Hr).
    vm_compute; reflexivity.
Defined.

End ResolverClaims.

Section LoggerClaims.
Import Viper Mapstructure config Resolver Zap Lifecycle.

(** The logger [Run] builds exists once the configuration decoded, and
    its level is the one lines 50-54 choose. *)
Lemma boot_logger (ver : string) (env : Environ) (f : Flags) (svc : Service) :
  logger (boot ver env f svc)
  = (fun _ => Logger.atomicLevel f) <$> resolve ver env f.
Proof.
  unfold boot. destruct (resolve ver env f) as [c |]; [| reflexivity].
  destruct (New_err svc); reflexivity.
Qed.

(** C7. The logger built by [Run] has minimum level Debug when the debug
    flag is true (every level is emitted), and minimum level Info when it
    is false: Debug records are suppressed, Info and above are emitted. *)
Theorem C7_logger_minimum_level
    (ver : string) (env : Environ) (f : Flags) (svc : Service) (lvl : Level) :
  logger (boot ver env f svc) = Some lvl ->
  (Debug f = true ->
     lvl = DebugLevel /\ forall l, Enabled lvl l = true)
  /\ (Debug f = false ->
     lvl = InfoLevel /\ Enabled lvl DebugLevel = false
     /\ forall l, l <> DebugLevel -> Enabled lvl l = true).
Proof.
  rewrite boot_logger. intros H.
  apply fmap_Some in H as (c & _ & ->).
  unfold Logger.atomicLevel. split; intros ->.
  - split; [reflexivity |]. intros []; reflexivity.
  - split; [reflexivity |]. split; [reflexivity |].
    intros [] Hl; try reflexivity. contradiction.
Qed.

Lemma C7_logger_minimum_level_witness :
  Enabled DebugLevel DebugLevel = true
  /\ Enabled InfoLevel DebugLevel = false
  /\ Enabled InfoLevel WarnLevel = true.
Proof.
  pose (fd := {| debug := Some true; server_host := None; server_port := None |}).
  assert (Hd : logger (boot "1.0" ∅ fd healthy) = Some DebugLevel)
    by (vm_compute; reflexivity).
  assert (Hi : logger (boot "1.0" ∅ no_flags healthy) = Some InfoLevel)
    by (vm_compute; reflexivity).
  destruct (C7_logger_minimum_level _ _ _ _ _ Hd) as [Hon _].
  destruct (C7_logger_minimum_level _ _ _ _ _ Hi) as [_ Hoff].
  destruct (Hon eq_refl) as [_ Hall].
  destruct (Hoff eq_refl) as (_ & Hno & Hrest).
  split; [apply Hall |]. split; [exact Hno |].
  apply Hrest. discriminate.
Defined.



End LoggerClaims.

(** ** The lifecycle: invariants of the two routines *)

Section LifecycleFacts.
Import Zap Lifecycle.

Variable svc : Service.

(** Induction along a schedule, for an invariant that the steps of the
    labels in [L] preserve. *)
Lemma run_from_invariant (P : State -> Prop) (L : Label -> Prop) :
  (forall l st st', L l -> P st -> step svc l st = Some st' -> P st') ->
  forall ls st st',
    Forall L ls -> P st -> run_from svc st ls = Some st' -> P st'.
Proof.
  intros Hstep ls. induction ls as [| l ls IH]; intros st st' HL HP Hrun.
  - injection Hrun as <-. exact HP.
  - cbn [run_from] in Hrun. inversion HL as [| ? ? Hl HLs]; subst.
    destruct (step svc l st) as [st1 |] eqn:Hs; [| discriminate].
    exact (IH st1 st' HLs (Hstep l st st1 Hl HP Hs) Hrun).
Qed.

Lemma Forall_any (ls : list Label) : Forall (fun _ => True) ls.
Proof. induction ls; constructor; auto. Qed.

Lemma count_snoc (p : Event -> bool) (t : list Event) (e : Event) :
  count p (t ++ [e]) = (count p t + (if p e then 1 else 0))%nat.
Proof.
  unfold count. rewrite List.filter_app, length_app. cbn [List.filter].
  destruct (p e); reflexivity.
Qed.

Lemma existsb_snoc (p : Event -> bool) (t : list Event) (e : Event) :
  existsb p (t ++ [e]) = existsb p t || p e.
Proof. rewrite existsb_app. cbn [existsb]. rewrite orb_false_r. reflexivity. Qed.

Lemma filter_snoc (p : Event -> bool) (t : list Event) (e : Event) :
  List.filter p (t ++ [e]) = (List.filter p t ++ (if p e then [e] else []))%list.
Proof. rewrite List.filter_app. cbn [List.filter]. destruct (p e); reflexivity. Qed.

End LifecycleFacts.

(** Case analysis on one step: every enabled transition of [step], from
    a state given by its fields. *)
Ltac state_simpl :=
  cbn [Lifecycle.mpc Lifecycle.wpc Lifecycle.logger Lifecycle.cancelled
       Lifecycle.sigs Lifecycle.done Lifecycle.trace Lifecycle.exited
       Lifecycle.emit Lifecycle.main_goto Lifecycle.watch_goto
       Lifecycle.cancel Lifecycle.set_sigs Lifecycle.set_done
       Lifecycle.halt Lifecycle.saw_done Lifecycle.in_signal_case] in *.

Ltac step_cases H :=
  unfold Lifecycle.step, Lifecycle.main_step, Lifecycle.watch_step,
         Lifecycle.select_sig, Lifecycle.select_done, Lifecycle.relay in H;
  state_simpl;
  repeat
    (match type of H with
     | context [match ?x with _ => _ end] =>
         destruct x eqn:?; try discriminate H
     end);
  injection H as <-; state_simpl.

(** A run along a known schedule from a state given by its fields, brought
    back to a state given by its fields. *)
Ltac forced_steps :=
  cbn [Lifecycle.run_from];
  cbv [Lifecycle.step Lifecycle.main_step Lifecycle.watch_step
       Lifecycle.select_sig Lifecycle.select_done Lifecycle.relay
       Lifecycle.halt Lifecycle.emit Lifecycle.main_goto Lifecycle.watch_goto
       Lifecycle.cancel Lifecycle.set_sigs Lifecycle.set_done
       Lifecycle.mpc Lifecycle.wpc Lifecycle.logger Lifecycle.cancelled
       Lifecycle.sigs Lifecycle.done Lifecycle.trace
       Lifecycle.Start_cancels Lifecycle.Start_blocks Lifecycle.Start_err
       negb andb].

Ltac forced_step H :=
  cbn [Lifecycle.run_from] in H;
  cbv [Lifecycle.step Lifecycle.main_step Lifecycle.watch_step
       Lifecycle.select_sig Lifecycle.select_done Lifecycle.relay
       Lifecycle.halt Lifecycle.emit Lifecycle.main_goto Lifecycle.watch_goto
       Lifecycle.cancel Lifecycle.set_sigs Lifecycle.set_done
       Lifecycle.mpc Lifecycle.wpc Lifecycle.logger Lifecycle.cancelled
       Lifecycle.sigs Lifecycle.done Lifecycle.trace
       Lifecycle.Start_cancels Lifecycle.Start_blocks Lifecycle.Start_err
       negb andb] in H.

Section LifecycleInvariants.
Import Zap Lifecycle.

Variable svc : Service.

(** The watcher and the Completion Signal: the channel has been written
    exactly when the watcher has returned, the watcher is past the
    [Done] case only if the context is cancelled, and the buffer is
    empty as long as the watcher has not returned. *)
Record watcher_inv (st : State) : Prop := {
  wi_count : count is_done_write (trace st)
             = if wpc st is WReturned then 1%nat else 0%nat;
  wi_cancelled : if saw_done (wpc st) then cancelled st = true else True;
  wi_done : if wpc st is WReturned then True else done st = None
}.

Lemma watcher_inv_step (l : Label) (st st' : State) :
  watcher_inv st -> step svc l st = Some st' -> watcher_inv st'.
Proof.
  destruct st as [m w lg c sg d t]. intros [Hc Hk Hd] Hs.
  step_cases Hs; split; state_simpl; rewrite ?count_snoc; cbn;
    try lia; try tauto; try congruence;
    destruct w; cbn in *; try lia; try tauto; congruence.
Qed.

(** Before any cancellation the protocol has been silent, except for the
    [Stop] of a signal case in progress. *)
Definition quiet_inv (st : State) : Prop :=
  match mpc st with
  | MHalted _ => True
  | _ =>
      if cancelled st then True
      else saw_done (wpc st) = false
           /\ List.filter is_shutdown (trace st)
              = if wpc st is WCancel then [Ev Watcher (AStop true)] else []
  end.

Lemma quiet_inv_step (l : Label) (st st' : State) :
  quiet_inv st -> step svc l st = Some st' -> quiet_inv st'.
Proof.
  destruct st as [m w lg c sg d t]. unfold quiet_inv. intros Hq Hs.
  step_cases Hs; rewrite ?filter_snoc; cbn; auto;
    try (destruct c; auto; destruct Hq as [Hq1 Hq2]; rewrite ?Hq2;
         try discriminate; split; auto;
         destruct w; cbn in *; auto; discriminate).
Qed.

(** The deferred [Sync] has run only on the way out of a clean return,
    and the main routine has read the Completion Signal only there. *)
Record return_inv (st : State) : Prop := {
  ri_sync : match mpc st with
            | MReturn | MHalted ExClean => existsb is_sync (trace st) = true
            | _ => existsb is_sync (trace st) = false
            end;
  ri_read : match mpc st with
            | MDeferred | MReturn | MHalted ExClean => True
            | _ => existsb is_done_read (trace st) = false
            end;
  ri_last : match mpc st with
            | MHalted x => last (trace st) = Some (Ev Main (AExit (exit_code x)))
            | _ => True
            end
}.

Lemma return_inv_step (l : Label) (st st' : State) :
  return_inv st -> step svc l st = Some st' -> return_inv st'.
Proof.
  destruct st as [m w lg c sg d t]. intros [Hy Hr Hl] Hs.
  step_cases Hs; split; state_simpl; rewrite ?existsb_snoc, ?last_snoc;
    cbn in *; rewrite ?orb_false_r, ?orb_true_r; auto; congruence.
Qed.

(** A failed [Start]: the main routine is on lines 97-99, and from line
    99 on the error has been logged. *)
Record start_fail_inv (st : State) : Prop := {
  sf_failed : match mpc st with
              | MLogErr | MOsExit | MHalted ExStartError => True
              | _ => existsb is_start_error (trace st) = false
              end;
  sf_logged : match mpc st with
              | MOsExit | MHalted ExStartError =>
                  In (Ev Main (ALog ErrorLevel "otlpinf startup error")) (trace st)
              | _ => True
              end
}.

Lemma start_fail_inv_step (l : Label) (st st' : State) :
  start_fail_inv st -> step svc l st = Some st' -> start_fail_inv st'.
Proof.
  destruct st as [m w lg c sg d t]. intros [Hf Hg] Hs.
  step_cases Hs; split; state_simpl; rewrite ?existsb_snoc;
    cbn in *; rewrite ?orb_false_r; auto;
    try (apply in_or_app; cbn; auto); congruence.
Qed.

(** Each action of the protocol is performed by the routine it belongs
    to. *)
Definition roles_inv (st : State) : Prop := Forall (role_ok svc) (trace st).

Lemma roles_inv_step (l : Label) (st st' : State) :
  roles_inv st -> step svc l st = Some st' -> roles_inv st'.
Proof.
  destruct st as [m w lg c sg d t]. unfold roles_inv. intros Hr Hs.
  step_cases Hs; auto; apply Forall_app; split; auto;
    (constructor; [| constructor]); unfold role_ok; cbn; auto.
Qed.

(** With no signal relayed the watcher never enters [case <-sigs]. *)
Record no_signal_inv (st : State) : Prop := {
  ns_sigs : sigs st = None;
  ns_case : in_signal_case (wpc st) = false;
  ns_stop : existsb is_stop (trace st) = false
}.

Lemma no_signal_inv_step (l : Label) (st st' : State) :
  is_relay l = false ->
  no_signal_inv st -> step svc l st = Some st' -> no_signal_inv st'.
Proof.
  destruct st as [m w lg c sg d t]. intros Hl [Hsg Hc Hp] Hs.
  step_cases Hs; split; state_simpl; rewrite ?existsb_snoc;
    cbn in *; rewrite ?orb_false_r; auto; congruence.
Qed.

(** The invariants together. *)
Record good (st : State) : Prop := {
  good_watcher : watcher_inv st;
  good_quiet : quiet_inv st;
  good_return : return_inv st;
  good_start : start_fail_inv st;
  good_roles : roles_inv st
}.

Lemma good_step (l : Label) (st st' : State) :
  good st -> step svc l st = Some st' -> good st'.
Proof.
  intros [] Hs. split;
    eauto using watcher_inv_step, quiet_inv_step, return_inv_step,
                start_fail_inv_step, roles_inv_step.
Qed.

Lemma good_boot (ver : string) (env : Viper.Environ) (f : Resolver.Flags) :
  good (boot ver env f svc).
Proof.
  unfold boot. destruct (Resolver.resolve ver env f) as [cfg |];
    [destruct (New_err svc) |];
    repeat split; cbn; auto;
    repeat (constructor; [unfold role_ok; cbn; auto |]); constructor.
Qed.

Lemma good_run (ver : string) (env : Viper.Environ) (f : Resolver.Flags)
    (ls : list Label) (st : State) :
  run ver env f svc ls = Some st -> good st.
Proof.
  unfold run. intros Hrun.
  exact (run_from_invariant svc good (fun _ => True)
           (fun l s s' _ => good_step l s s') ls _ st (Forall_any ls)
           (good_boot ver env f) Hrun).
Qed.

Lemma no_signal_boot (ver : string) (env : Viper.Environ) (f : Resolver.Flags) :
  no_signal_inv (boot ver env f svc).
Proof.
  unfold boot. destruct (Resolver.resolve ver env f) as [cfg |];
    [destruct (New_err svc) |]; split; reflexivity.
Qed.

Lemma no_signal_run (ver : string) (env : Viper.Environ) (f : Resolver.Flags)
    (ls : list Label) (st : State) :
  forallb (fun l => negb (is_relay l)) ls = true ->
  run ver env f svc ls = Some st -> no_signal_inv st.
Proof.
  unfold run. intros Hls Hrun.
  assert (HL : Forall (fun l => is_relay l = false) ls).
  { apply List.Forall_forall. intros l Hin.
    rewrite forallb_forall in Hls. apply negb_true_iff, Hls, Hin. }
  exact (run_from_invariant svc no_signal_inv _
           (fun l s s' => no_signal_inv_step l s s') ls _ st HL
           (no_signal_boot ver env f) Hrun).
Qed.

End LifecycleInvariants.

(** ** Open schedules: what survives a cancellation by the service *)

(** One move of an open schedule from a state given by its fields, brought
    back to a state given by its fields. *)
Ltac open_forced_steps :=
  cbn [Lifecycle.open_run_from Lifecycle.sched List.map];
  cbv [Lifecycle.open_step Lifecycle.service_cancel Lifecycle.handed
       Lifecycle.step Lifecycle.main_step Lifecycle.watch_step
       Lifecycle.select_sig Lifecycle.select_done Lifecycle.relay
       Lifecycle.halt Lifecycle.emit Lifecycle.main_goto Lifecycle.watch_goto
       Lifecycle.cancel Lifecycle.set_sigs Lifecycle.set_done
       Lifecycle.mpc Lifecycle.wpc Lifecycle.logger Lifecycle.cancelled
       Lifecycle.sigs Lifecycle.done Lifecycle.trace
       Lifecycle.Start_cancels Lifecycle.Start_blocks Lifecycle.Start_err
       negb andb].

Ltac open_forced_step H :=
  cbn [Lifecycle.open_run_from] in H;
  cbv [Lifecycle.open_step Lifecycle.service_cancel Lifecycle.handed
       Lifecycle.step Lifecycle.main_step Lifecycle.watch_step
       Lifecycle.select_sig Lifecycle.select_done Lifecycle.relay
       Lifecycle.halt Lifecycle.emit Lifecycle.main_goto Lifecycle.watch_goto
       Lifecycle.cancel Lifecycle.set_sigs Lifecycle.set_done
       Lifecycle.mpc Lifecycle.wpc Lifecycle.logger Lifecycle.cancelled
       Lifecycle.sigs Lifecycle.done Lifecycle.trace
       Lifecycle.Start_cancels Lifecycle.Start_blocks Lifecycle.Start_err
       negb andb] in H.

Section OpenLifecycle.
Import Zap Lifecycle.

Variable svc : Service.

Lemma open_run_from_preserves (P : State -> Prop) :
  (forall ol st st', P st -> open_step svc ol st = Some st' -> P st') ->
  forall ols st st', P st -> open_run_from svc st ols = Some st' -> P st'.
Proof.
  intros Hstep ols. induction ols as [| ol ols IH]; intros st st' HP Hrun.
  - injection Hrun as <-. exact HP.
  - cbn [open_run_from] in Hrun.
    destruct (open_step svc ol st) as [st1 |] eqn:Hs; [| discriminate].
    exact (IH st1 st' (Hstep ol st st1 HP Hs) Hrun).
Qed.

(** A schedule of [step] runs the same as an open schedule. *)
Lemma open_run_from_sched (ls : list Label) (st : State) :
  open_run_from svc st (sched ls) = run_from svc st ls.
Proof.
  revert st. induction ls as [| l ls IH]; intros st; [reflexivity |].
  cbn [sched List.map open_run_from run_from open_step].
  destruct (step svc l st); [apply IH | reflexivity].
Qed.

(** A cancellation by the service leaves the watcher's invariant and the
    silence before the first cancellation as they are. *)
Lemma watcher_inv_open_step (ol : OpenLabel) (st st' : State) :
  watcher_inv st -> open_step svc ol st = Some st' -> watcher_inv st'.
Proof.
  destruct ol as [l |]; [apply watcher_inv_step |].
  destruct st as [m w lg c sg d t]. intros [Hc Hk Hd] Hs.
  unfold open_step, service_cancel in Hs. cbn in Hs.
  destruct (handed m); [| discriminate Hs]. injection Hs as <-.
  split; state_simpl; rewrite ?count_snoc; cbn -[count];
    try (destruct (saw_done w); reflexivity || exact I);
    try assumption.
  rewrite Hc. lia.
Qed.

Lemma quiet_inv_open_step (ol : OpenLabel) (st st' : State) :
  quiet_inv st -> open_step svc ol st = Some st' -> quiet_inv st'.
Proof.
  destruct ol as [l |]; [apply quiet_inv_step |].
  destruct st as [m w lg c sg d t]. unfold quiet_inv. intros _ Hs.
  unfold open_step, service_cancel in Hs. cbn in Hs.
  destruct m; cbn in Hs; try discriminate Hs; injection Hs as <-; exact I.
Qed.

(** Under open schedules: who performs what, and no cancellation but the
    watcher's before [Start] has been called. *)
Record open_roles_inv (st : State) : Prop := {
  or_roles : Forall (open_role_ok svc) (trace st);
  or_handed : match mpc st with
              | MCallStart | MHalted ExConfigError | MHalted ExNewError =>
                  existsb is_foreign_cancel (trace st) = false
              | _ => existsb is_start_call (trace st) = true
              end
}.

Lemma open_roles_inv_step (ol : OpenLabel) (st st' : State) :
  open_roles_inv st -> open_step svc ol st = Some st' -> open_roles_inv st'.
Proof.
  destruct st as [m w lg c sg d t]. intros [Hr Hh] Hs.
  destruct ol as [l |]; cbn [open_step] in Hs.
  - step_cases Hs; split; state_simpl; rewrite ?existsb_snoc;
      cbn in *; rewrite ?orb_false_r, ?orb_true_r; auto;
      try (apply Forall_app; split; [exact Hr |];
           (constructor; [| constructor]); unfold open_role_ok; cbn; auto).
  - unfold service_cancel in Hs. cbn in Hs.
    destruct m as [| | | | | | | | x]; cbn in Hs; try discriminate Hs;
      injection Hs as <-; split; state_simpl; rewrite ?existsb_snoc;
      cbn in *; rewrite ?orb_false_r; auto;
      apply Forall_app; (split; [exact Hr |]);
      (constructor; [| constructor]); unfold open_role_ok; cbn; auto.
Qed.

End OpenLifecycle.

(** ** Claims on the Lifecycle Coordinator *)

Section LifecycleClaims.
Import Zap Lifecycle Resolver.

(** Every continuation of a run that brings no signal and no cancellation
    by the service and ends with the process gone: all schedules the
    scheduler allows are followed. *)
Ltac explore Hpr Hpost Hex post finish :=
  destruct post as [| ol post];
  [ injection Hpr as <-;
    first [ destruct Hex as [? Hex]; discriminate Hex | finish ]
  | destruct ol as [l |]; [destruct l |];
    cbn [forallb calm andb] in Hpost;
    try discriminate Hpost; open_forced_step Hpr; try discriminate Hpr;
    explore Hpr Hpost Hex post finish ].

(** C2, as stated, fails in three ways, each from a state in which the
    service is Running and the watcher takes a signal. A second signal
    taken before the [Done] case brings a second [Stop], with the context
    already cancelled; a [Start] that returns an error once it is told to
    stop ends the process with status 1, the Completion Signal never
    read; and a service that calls the cancel function it holds makes
    [Stop] see the context cancelled and the cancellation happen twice. *)
Lemma C2_fails_outside_its_assumptions :
  (exists st1 st2,
      open_run "1.0" ∅ no_flags healthy (sched (startup ++ [LRelay SIGINT]))
      = Some st1
      /\ Running st1 /\ sigs st1 = Some SIGINT
      /\ open_run_from healthy st1 (Sched LSelectSig :: sched second_signal)
         = Some st2
      /\ exited st2 = Some 0
      /\ List.filter is_shutdown (trace st2)
         = [Ev Watcher (AStop true); Ev Watcher ACancel;
            Ev Watcher (AStop false); Ev Watcher ACancel;
            Ev Watcher ADoneWrite; Ev Main (AExit 0)]
      /\ List.filter is_shutdown (trace st2) <> protocol)
  /\ (exists st1 st2,
      open_run "1.0" ∅ no_flags blocking_failing (sched signal_while_blocked)
      = Some st1
      /\ Running st1 /\ sigs st1 = Some SIGTERM
      /\ open_run_from blocking_failing st1
           (Sched LSelectSig :: sched failure_after_stop) = Some st2
      /\ exited st2 = Some 1
      /\ List.filter is_shutdown (trace st2)
         = [Ev Watcher (AStop true); Ev Watcher ACancel; Ev Main (AExit 1)]
      /\ List.filter is_shutdown (trace st2) <> protocol)
  /\ (exists st1 st2,
      open_run "1.0" ∅ no_flags healthy (sched (startup ++ [LRelay SIGINT]))
      = Some st1
      /\ Running st1 /\ sigs st1 = Some SIGINT
      /\ open_run_from healthy st1
           (Sched LSelectSig :: LServiceCancel :: sched shutdown_schedule)
         = Some st2
      /\ exited st2 = Some 0
      /\ List.filter is_shutdown (trace st2)
         = [Ev ServiceSide ACancel; Ev Watcher (AStop false);
            Ev Watcher ACancel; Ev Watcher ADoneWrite; Ev Main (AExit 0)]
      /\ List.filter is_shutdown (trace st2) <> protocol).
Proof.
  split; [| split];
    (eexists; eexists;
     split; [vm_compute; reflexivity |];
     split; [repeat split |];
     split; [reflexivity |];
     split; [vm_compute; reflexivity |];
     split; [reflexivity |];
     split; [reflexivity | discriminate]).
Qed.

(** C2, amended. A termination signal received while the service is
    Running, with a [Start] that returns nil, a service that does not call
    the cancel function, in [Start] or later, and no further signal
    relayed: the shutdown can be completed, and however it is scheduled
    the protocol events of the whole run are, in this order, one [Stop]
    with the root context live, one cancellation, one write of the
    Completion Signal by the watcher and the exit with code 0. *)
Theorem C2_signal_while_running
    (ver : string) (env : Viper.Environ) (f : Flags) (svc : Service)
    (pre : list OpenLabel) (st1 : State) (s : Signal) :
  open_run ver env f svc pre = Some st1 ->
  Running st1 ->
  sigs st1 = Some s ->
  Start_err svc = None ->
  Start_cancels svc = false ->
  (exists post st2,
      forallb calm post = true
      /\ open_run_from svc st1 (Sched LSelectSig :: post) = Some st2
      /\ exited st2 = Some 0)
  /\ forall post st2,
      forallb calm post = true ->
      open_run_from svc st1 (Sched LSelectSig :: post) = Some st2 ->
      is_Some (exited st2) ->
      List.filter is_shutdown (trace st2) = protocol
      /\ exited st2 = Some 0.
Proof.
  intros Hrun (Hm & Hw & Hc) Hs Hse Hsc.
  assert (Hinv : watcher_inv st1 /\ quiet_inv st1).
  { refine (open_run_from_preserves svc
              (fun st => watcher_inv st /\ quiet_inv st) _ pre _ st1 _ Hrun).
    - intros ol st st' [H1 H2] Hstep. split.
      + exact (watcher_inv_open_step svc ol st st' H1 Hstep).
      + exact (quiet_inv_open_step svc ol st st' H2 Hstep).
    - destruct (good_boot svc ver env f) as [H1 H2 _ _ _]. split; assumption. }
  destruct Hinv as [[_ _ Hd] Hq]. unfold quiet_inv in Hq.
  destruct st1 as [m w lg c sg d t]. cbn in Hm, Hw, Hc, Hs, Hd, Hq.
  subst w c sg. cbn in Hd. subst d.
  assert (Ht : List.filter is_shutdown t = []).
  { destruct m; try discriminate Hm; apply Hq. }
  clear Hq Hrun.
  destruct svc as [ne sc sb se]. cbn in Hse, Hsc. subst se sc.
  destruct m; try discriminate Hm; (split;
    [ | intros post st2 Hpost Hpr Hex; open_forced_step Hpr;
        try (destruct sb; open_forced_step Hpr);
        explore Hpr Hpost Hex post
          ltac:(split; [cbn [trace]; rewrite !List.filter_app, Ht | ];
                reflexivity) ]).
  - exists (sched (LMain :: shutdown_of_blocked)).
    unfold shutdown_of_blocked.
    destruct sb; open_forced_steps; eexists; repeat split.
  - exists (sched shutdown_of_blocked). unfold shutdown_of_blocked.
    destruct sb; open_forced_steps; eexists; repeat split.
  - exists (sched shutdown_schedule). unfold shutdown_schedule.
    open_forced_steps. eexists. repeat split.
Qed.

Lemma C2_signal_while_running_witness :
  (exists st1 st2,
    open_run "1.0" ∅ no_flags healthy (sched (startup ++ [LRelay SIGINT]))
    = Some st1
    /\ open_run_from healthy st1 (Sched LSelectSig :: sched shutdown_schedule)
       = Some st2
    /\ List.filter is_shutdown (trace st2) = protocol
    /\ exited st2 = Some 0)
  /\ (exists st1 st2,
    open_run "1.0" ∅ no_flags blocking (sched signal_while_blocked) = Some st1
    /\ open_run_from blocking st1 (Sched LSelectSig :: sched shutdown_of_blocked)
       = Some st2
    /\ List.filter is_shutdown (trace st2) = protocol
    /\ exited st2 = Some 0).
Proof.
  split.
  - destruct (open_run "1.0" ∅ no_flags healthy
                (sched (startup ++ [LRelay SIGINT])))
      as [st1 |] eqn:H1; [| vm_compute in H1; discriminate].
    assert (HR : Running st1 /\ sigs st1 = Some SIGINT).
    { pose proof H1 as H. vm_compute in H. injection H as <-.
      repeat split. }
    destruct HR as [HR Hs].
    assert (Hse : Start_err healthy = None) by reflexivity.
    assert (Hsc : Start_cancels healthy = false) by reflexivity.
    destruct (C2_signal_while_running _ _ _ _ _ _ _ H1 HR Hs Hse Hsc)
      as [_ Hall].
    destruct (open_run_from healthy st1
                (Sched LSelectSig :: sched shutdown_schedule))
      as [st2 |] eqn:H2.
    + assert (Hx : is_Some (exited st2)).
      { pose proof H1 as H. vm_compute in H. injection H as E.
        rewrite <- E in H2. vm_compute in H2. injection H2 as <-.
        eexists; reflexivity. }
      exists st1, st2. split; [reflexivity |]. split; [exact H2 |].
      exact (Hall (sched shutdown_schedule) st2 eq_refl H2 Hx).
    + pose proof H1 as H. vm_compute in H. injection H as E.
      rewrite <- E in H2. vm_compute in H2. discriminate H2.
  - destruct (open_run "1.0" ∅ no_flags blocking (sched signal_while_blocked))
      as [st1 |] eqn:H1; [| vm_compute in H1; discriminate].
    assert (HR : Running st1 /\ sigs st1 = Some SIGTERM).
    { pose proof H1 as H. vm_compute in H. injection H as <-.
      repeat split. }
    destruct HR as [HR Hs].
    assert (Hse : Start_err blocking = None) by reflexivity.
    assert (Hsc : Start_cancels blocking = false) by reflexivity.
    destruct (C2_signal_while_running _ _ _ _ _ _ _ H1 HR Hs Hse Hsc)
      as [_ Hall].
    destruct (open_run_from blocking st1
                (Sched LSelectSig :: sched shutdown_of_blocked))
      as [st2 |] eqn:H2.
    + assert (Hx : is_Some (exited st2)).
      { pose proof H1 as H. vm_compute in H. injection H as E.
        rewrite <- E in H2. vm_compute in H2. injection H2 as <-.
        eexists; reflexivity. }
      exists st1, st2. split; [reflexivity |]. split; [exact H2 |].
      exact (Hall (sched shutdown_of_blocked) st2 eq_refl H2 Hx).
    + pose proof H1 as H. vm_compute in H. injection H as E.
      rewrite <- E in H2. vm_compute in H2. discriminate H2.
Defined.

(** Beyond C2: a second signal, taken by the [select] before
    the [Done] case, brings a second [Stop], this one with the context
    already cancelled. *)
Lemma second_signal_repeats_stop :
  exists st, run "1.0" ∅ no_flags healthy two_signals = Some st
             /\ List.map act (List.filter is_stop (trace st))
                = [AStop true; AStop false]
             /\ count is_done_write (trace st) = 1%nat
             /\ exited st = Some 0.
Proof. eexists. split; [vm_compute; reflexivity |]. repeat split. Qed.

(** The clean return runs the deferred [Sync] before the process ends. *)
Lemma clean_exit_runs_sync
    (ver : string) (env : Viper.Environ) (f : Flags) (svc : Service)
    (ls : list Label) (st : State) :
  run ver env f svc ls = Some st ->
  exited st = Some 0 ->
  existsb is_sync (trace st) = true.
Proof.
  intros Hrun Hex.
  destruct (good_run svc ver env f ls st Hrun) as [_ _ [Hy _ _] _ _].
  unfold exited in Hex.
  destruct (mpc st) as [| | | | | | | | []]; try discriminate Hex; exact Hy.
Qed.

(** The exits through [os.Exit(1)] never run it. *)
Lemma error_exit_skips_sync
    (ver : string) (env : Viper.Environ) (f : Flags) (svc : Service)
    (ls : list Label) (st : State) :
  run ver env f svc ls = Some st ->
  exited st = Some 1 ->
  existsb is_sync (trace st) = false.
Proof.
  intros Hrun Hex.
  destruct (good_run svc ver env f ls st Hrun) as [_ _ [Hy _ _] _ _].
  unfold exited in Hex.
  destruct (mpc st) as [| | | | | | | | []]; try discriminate Hex; exact Hy.
Qed.

(** C3 (the logger is flushed on every exit path). The code does not do
    so on its error paths: when [Start] fails, and when [New] fails, the
    process ends through [os.Exit(1)], which runs no deferred call, and
    the trace holds no [Sync]. *)
Theorem C3_error_exits_skip_sync :
  (exists st, run "1.0" ∅ no_flags failing startup_failure = Some st
              /\ exited st = Some 1
              /\ existsb is_sync (trace st) = false)
  /\ (exited (boot "1.0" ∅ no_flags unbuildable) = Some 1
      /\ existsb is_sync (trace (boot "1.0" ∅ no_flags unbuildable)) = false).
Proof.
  split.
  - destruct (run "1.0" ∅ no_flags failing startup_failure) as [st |] eqn:H;
      [| vm_compute in H; discriminate].
    assert (Hex : exited st = Some 1).
    { pose proof H as H'. vm_compute in H'. injection H' as <-. reflexivity. }
    exists st. split; [reflexivity |]. split; [exact Hex |].
    exact (error_exit_skips_sync _ _ _ _ _ _ H Hex).
  - split; vm_compute; reflexivity.
Qed.

(** C4, as stated, fails: a signal that arrives before [Start] has
    returned its error is served by the watcher, which calls [Stop]. *)
Lemma C4_stop_called_despite_start_error :
  exists st, run "1.0" ∅ no_flags failing signal_during_startup = Some st
             /\ existsb is_start_error (trace st) = true
             /\ count is_stop (trace st) = 1%nat
             /\ exited st = Some 1.
Proof. eexists. split; [vm_compute; reflexivity |]. repeat split. Qed.

(** C4, amended. Once [Start] has returned an error, the main routine is
    on lines 97-99: it never reads the Completion Signal and never calls
    [Stop]; the process can always go on to its exit, and any exit is
    with code 1, after the error was logged. [Stop] is not called at all
    when no signal has been relayed to the watcher. *)
Theorem C4_start_error_exit
    (ver : string) (env : Viper.Environ) (f : Flags) (svc : Service)
    (ls : list Label) (st : State) :
  run ver env f svc ls = Some st ->
  existsb is_start_error (trace st) = true ->
  existsb is_done_read (trace st) = false
  /\ mpc st <> MWaitDone
  /\ Forall (fun e => is_stop e = true -> who e = Watcher) (trace st)
  /\ (forallb (fun l => negb (is_relay l)) ls = true ->
      existsb is_stop (trace st) = false)
  /\ (forall c, exited st = Some c ->
        c = 1
        /\ In (Ev Main (ALog ErrorLevel "otlpinf startup error")) (trace st)
        /\ last (trace st) = Some (Ev Main (AExit 1)))
  /\ (exists ls' st', run_from svc st ls' = Some st' /\ exited st' = Some 1).
Proof.
  intros Hrun Herr.
  destruct (good_run svc ver env f ls st Hrun)
    as [_ _ [_ Hread Hlast] [Hf Hg] Hroles].
  assert (Hpc : mpc st = MLogErr \/ mpc st = MOsExit
                \/ mpc st = MHalted ExStartError).
  { destruct (mpc st) as [| | | | | | | | []]; auto; congruence. }
  split; [| split; [| split; [| split; [| split]]]].
  - destruct Hpc as [E | [E | E]]; rewrite E in Hread; exact Hread.
  - destruct Hpc as [E | [E | E]]; rewrite E; discriminate.
  - eapply Forall_impl; [exact Hroles |].
    intros [r a]. unfold role_ok, is_stop. cbn.
    destruct a; intros H H'; try discriminate H'; exact H.
  - intros Hls. apply (no_signal_run svc ver env f ls st Hls Hrun).
  - intros c Hex. unfold exited in Hex.
    destruct Hpc as [E | [E | E]]; rewrite E in Hex, Hg, Hlast;
      try discriminate Hex.
    injection Hex as <-. auto.
  - destruct st as [m w lg c sg d t]. cbn in Hpc.
    destruct Hpc as [-> | [-> | ->]].
    + exists [LMain; LMain]. forced_steps. eexists; split; reflexivity.
    + exists [LMain]. forced_steps. eexists; split; reflexivity.
    + exists []. eexists; split; reflexivity.
Qed.

Lemma C4_start_error_exit_witness :
  exists st, run "1.0" ∅ no_flags failing startup_failure = Some st
             /\ existsb is_stop (trace st) = false
             /\ existsb is_done_read (trace st) = false
             /\ last (trace st) = Some (Ev Main (AExit 1)).
Proof.
  destruct (run "1.0" ∅ no_flags failing startup_failure) as [st |] eqn:H;
    [| vm_compute in H; discriminate].
  assert (He : existsb is_start_error (trace st) = true
               /\ exited st = Some 1).
  { pose proof H as H'. vm_compute in H'. injection H' as <-.
    split; reflexivity. }
  destruct He as [He Hx].
  destruct (C4_start_error_exit _ _ _ _ _ _ H He)
    as (Hr & _ & _ & Hs & Hc & _).
  exists st. split; [reflexivity |]. split; [exact (Hs eq_refl) |].
  split; [exact Hr |]. exact (proj2 (proj2 (Hc 1 Hx))).
Defined.

(** C5. Whatever the signals and the schedule, the Completion Signal is
    written at most once, and only by the watcher; it has been written
    exactly when the watcher has returned, which it does only with the
    root context cancelled, and a watcher that has returned takes no
    further step. *)
Theorem C5_completion_signal_written_at_most_once
    (ver : string) (env : Viper.Environ) (f : Flags) (svc : Service)
    (ls : list Label) (st : State) :
  run ver env f svc ls = Some st ->
  (count is_done_write (trace st) <= 1)%nat
  /\ (count is_done_write (trace st) = 1%nat <-> wpc st = WReturned)
  /\ (wpc st = WReturned ->
      cancelled st = true
      /\ watch_step st = None /\ select_sig st = None
      /\ select_done st = None)
  /\ Forall (fun e => is_done_write e = true -> who e = Watcher) (trace st).
Proof.
  intros Hrun.
  destruct (good_run svc ver env f ls st Hrun) as [[Hc Hk _] _ _ _ Hroles].
  split; [| split; [| split]].
  - rewrite Hc. destruct (wpc st); lia.
  - rewrite Hc. destruct (wpc st); split; intros H; try discriminate H;
      reflexivity.
  - intros Hw. unfold watch_step, select_sig, select_done.
    rewrite Hw in *. cbn in Hk. auto.
  - eapply Forall_impl; [exact Hroles |].
    intros [r a]. unfold role_ok, is_done_write. cbn.
    destruct a; intros H H'; try discriminate H'; exact H.
Qed.

Lemma C5_completion_signal_written_at_most_once_witness :
  exists st, run "1.0" ∅ no_flags healthy two_signals = Some st
             /\ count is_stop (trace st) = 2%nat
             /\ (count is_done_write (trace st) <= 1)%nat.
Proof.
  destruct (run "1.0" ∅ no_flags healthy two_signals) as [st |] eqn:H;
    [| vm_compute in H; discriminate].
  exists st. split; [reflexivity |]. split.
  - pose proof H as H'. vm_compute in H'. injection H' as <-. reflexivity.
  - exact (proj1 (C5_completion_signal_written_at_most_once _ _ _ _ _ _ H)).
Defined.

(** C8, as stated, fails: line 96 hands the cancel function to [Start],
    and a service that calls it cancels the root context from the main
    routine; no signal is involved and [Stop] is never called. *)
Lemma C8_start_can_cancel_root_context :
  exists st, run "1.0" ∅ no_flags self_cancelling cancelled_by_service = Some st
             /\ In (Ev Main ACancel) (trace st)
             /\ existsb is_stop (trace st) = false
             /\ cancelled st = true
             /\ exited st = Some 0.
Proof.
  eexists. split; [vm_compute; reflexivity |].
  split; [cbn; auto 10 |]. repeat split.
Qed.

(** C8, amended. The cancel function is invoked by the watcher in its
    signal case, and line 96 hands it to [Start]: the service can cancel
    the root context, inside [Start] or at any later time, and every
    cancellation that is not the watcher's is the service's and comes
    after that call of [Start]. The Completion Signal is written only by
    the watcher and read only by the main routine. *)
Theorem C8_writer_roles
    (ver : string) (env : Viper.Environ) (f : Flags) (svc : Service)
    (ols : list OpenLabel) (st : State) (e : Event) :
  open_run ver env f svc ols = Some st ->
  In e (trace st) ->
  (is_cancel e = true ->
     who e = Watcher
     \/ (((who e = Main /\ Start_cancels svc = true) \/ who e = ServiceSide)
         /\ existsb is_start_call (trace st) = true))
  /\ (is_done_write e = true -> who e = Watcher)
  /\ (is_done_read e = true -> who e = Main).
Proof.
  intros Hrun Hin.
  assert (H0 : open_roles_inv svc (boot ver env f svc)).
  { unfold boot. destruct (resolve ver env f) as [cfg |];
      [destruct (New_err svc) |]; split; cbn; auto;
      repeat (constructor; [unfold open_role_ok; cbn; auto |]); constructor. }
  destruct (open_run_from_preserves svc (open_roles_inv svc)
              (open_roles_inv_step svc) ols _ st H0 Hrun) as [Hroles Hh].
  rewrite List.Forall_forall in Hroles. pose proof (Hroles e Hin) as He.
  split; [| split].
  - intros Hc.
    assert (Hcase : who e = Watcher \/ is_foreign_cancel e = true).
    { unfold is_foreign_cancel, by_watcher. rewrite Hc.
      destruct (who e); auto. }
    destruct Hcase as [Hw | Hf]; [left; exact Hw | right].
    assert (Hex : existsb is_foreign_cancel (trace st) = true)
      by (apply existsb_exists; exists e; split; assumption).
    split.
    + unfold open_role_ok in He. unfold is_cancel in Hc.
      destruct (act e); try discriminate Hc.
      destruct He as [Hw | He]; [| exact He].
      unfold is_foreign_cancel, by_watcher in Hf. rewrite Hw in Hf.
      rewrite andb_false_r in Hf. discriminate Hf.
    + destruct (mpc st) as [| | | | | | | | []]; try exact Hh; congruence.
  - unfold open_role_ok in He. unfold is_done_write.
    destruct (act e); intros H; try discriminate H; exact He.
  - unfold open_role_ok in He. unfold is_done_read.
    destruct (act e); intros H; try discriminate H; exact He.
Qed.

Lemma C8_writer_roles_witness :
  exists st, open_run "1.0" ∅ no_flags healthy cancelled_later = Some st
             /\ In (Ev ServiceSide ACancel) (trace st)
             /\ existsb is_start_call (trace st) = true
             /\ exited st = Some 0.
Proof.
  destruct (open_run "1.0" ∅ no_flags healthy cancelled_later)
    as [st |] eqn:H; [| vm_compute in H; discriminate].
  assert (Hin : In (Ev ServiceSide ACancel) (trace st) /\ exited st = Some 0).
  { pose proof H as H'. vm_compute in H'. injection H' as <-.
    split; [cbn; auto 10 | reflexivity]. }
  destruct Hin as [Hin Hx].
  exists st. split; [reflexivity |]. split; [exact Hin |].
  split; [| exact Hx].
  destruct (proj1 (C8_writer_roles _ _ _ _ _ _ _ H Hin) eq_refl)
    as [Hw | [_ Hs]]; [discriminate Hw | exact Hs].
Defined.

(** C10. The send of line 89 never blocks: whenever the watcher is about
    to send and the process is still alive, the one-slot buffer is empty,
    so the send goes through at once and the watcher returns. *)
Theorem C10_completion_send_never_blocks
    (ver : string) (env : Viper.Environ) (f : Flags) (svc : Service)
    (ls : list Label) (st : State) :
  run ver env f svc ls = Some st ->
  wpc st = WSend ->
  exited st = None ->
  done st = None
  /\ exists st',
      step svc LWatch st = Some st'
      /\ wpc st' = WReturned
      /\ done st' = Some true
      /\ trace st' = (trace st ++ [Ev Watcher ADoneWrite])%list.
Proof.
  intros Hrun Hw Hex.
  destruct (good_run svc ver env f ls st Hrun) as [[_ _ Hd] _ _ _ _].
  rewrite Hw in Hd. split; [exact Hd |].
  destruct st as [m w lg c sg d t]. cbn in Hw, Hex, Hd. subst w d.
  unfold exited in Hex. cbn in Hex.
  destruct m; try discriminate Hex;
    (eexists; split; [reflexivity | repeat split]).
Qed.

Lemma C10_completion_send_never_blocks_witness :
  exists st st',
    run "1.0" ∅ no_flags healthy before_send = Some st
    /\ step healthy LWatch st = Some st'
    /\ wpc st' = WReturned.
Proof.
  destruct (run "1.0" ∅ no_flags healthy before_send) as [st |] eqn:H;
    [| vm_compute in H; discriminate].
  assert (Hs : wpc st = WSend /\ exited st = None).
  { pose proof H as H'. vm_compute in H'. injection H' as <-.
    split; reflexivity. }
  destruct Hs as [Hw Hex].
  destruct (C10_completion_send_never_blocks _ _ _ _ _ _ H Hw Hex)
    as (_ & st' & Hstep & Hr & _).
  exists st, st'. split; [reflexivity |]. split; assumption.
Defined.

End LifecycleClaims.


(** * Further properties of the resolver *)

Section ResolverExtras.
Import Bytes Viper Mapstructure config Resolver.

Lemma default_of_debug :
  defaults !! "otlp_inf.debug" = Some (VBool false).
Proof. vm_compute; reflexivity. Qed.

Lemma default_of_host :
  defaults !! "otlp_inf.server_host" = Some (VString "localhost").
Proof. vm_compute; reflexivity. Qed.

Lemma default_of_port :
  defaults !! "otlp_inf.server_port" = Some (VInt 10222).
Proof. vm_compute; reflexivity. Qed.

(** A registered key whose variable is unset is either absent, when the
    parent [OTLP_INF] is set, or holds its default. *)
Lemma setting_without_variable (env : Environ) (k : string) (d : Value) :
  registered k -> defaults !! k = Some d -> env !! envName k = None ->
  initConfig env ∅ !! k
  = if bool_decide (is_Some (getEnv env "OTLP_INF")) then None else Some d.
Proof.
  intros Hk Hd He. rewrite initConfig_lookup, Hd. cbn [mbind option_bind].
  unfold Get. rewrite getEnv_upper, He, (shadow_registered env k Hk), Hd.
  reflexivity.
Qed.

(** X1. The environment wins over the flags as well as over the defaults: a
    variable that is set and decodes is the resolved value, whatever the
    command line said. *)
Theorem environment_overrides_flags
    (ver : string) (env : Environ) (f : Flags) (c : Config) :
  resolve ver env f = Some c ->
  (forall s b, env !! envName "otlp_inf.debug" = Some s ->
               Strconv.ParseBool s = Some b ->
               config.Debug (OtlpInf c) = b)
  /\ (forall s, env !! envName "otlp_inf.server_host" = Some s ->
                s <> "" ->
                config.ServerHost (OtlpInf c) = s)
  /\ (forall s v, env !! envName "otlp_inf.server_port" = Some s ->
                  Strconv.ParseUint s = Some v ->
                  config.ServerPort (OtlpInf c) = v).
Proof.
  intros Hr. apply Unmarshal_fields in Hr as (Hd & Hh & Hp & _).
  unfold field in Hd, Hh, Hp.
  change (key_debug keys) with "otlp_inf.debug" in Hd.
  change (key_server_host keys) with "otlp_inf.server_host" in Hh.
  change (key_server_port keys) with "otlp_inf.server_port" in Hp.
  split; [| split].
  - intros s b He Hb.
    assert (Hs : s <> "") by (intros ->; discriminate).
    rewrite (setting_from_env env _ s (or_introl eq_refl) He Hs) in Hd.
    unfold decodeBool in Hd. rewrite Hb in Hd. congruence.
  - intros s He Hs.
    rewrite (setting_from_env env _ s (or_intror (or_introl eq_refl)) He Hs)
      in Hh.
    cbn [decodeString] in Hh. congruence.
  - intros s v He Hv.
    assert (Hs : s <> "") by (intros ->; discriminate).
    rewrite (setting_from_env env _ s (or_intror (or_intror eq_refl)) He Hs)
      in Hp.
    unfold decodeUint in Hp.
    destruct (String.eqb_spec s ""); [contradiction |]. congruence.
Qed.

Lemma environment_overrides_flags_witness :
  resolve "1.0"
    {[ "OTLP_INF_DEBUG" := "1"; "OTLP_INF_SERVER_HOST" := "0.0.0.0";
       "OTLP_INF_SERVER_PORT" := "0x1F90" ]}
    {| debug := Some false; server_host := Some "example.org";
       server_port := Some 9000 |}
  = Some {| Version := "1.0";
            OtlpInf := {| config.Debug := true;
                          config.ServerHost := "0.0.0.0";
                          config.ServerPort := 8080 |} |}.
Proof.
  set (env := ({[ "OTLP_INF_DEBUG" := "1"; "OTLP_INF_SERVER_HOST" := "0.0.0.0";
                  "OTLP_INF_SERVER_PORT" := "0x1F90" ]} : Environ)).
  set (f := {| debug := Some false; server_host := Some "example.org";
               server_port := Some 9000 |}).
  destruct (resolve "1.0" env f) as [c |] eqn:Hr;
    [| vm_compute in Hr; discriminate].
  destruct (environment_overrides_flags "1.0" env f c Hr) as (Hd & Hh & Hp).
  pose proof (Hd "1" true ltac:(vm_compute; reflexivity) eq_refl) as Ed.
  pose proof (Hh "0.0.0.0" ltac:(vm_compute; reflexivity)
                ltac:(discriminate)) as Eh.
  pose proof (Hp "0x1F90" 8080 ltac:(vm_compute; reflexivity)
                ltac:(vm_compute; reflexivity)) as Ep.
  apply Unmarshal_fields in Hr as (_ & _ & _ & Ev).
  destruct c as [v [d h q]]. cbn in Ed, Eh, Ep, Ev. subst. reflexivity.
Defined.

End ResolverExtras.

Section ResolverEdges.
Import Bytes Viper Mapstructure config Resolver Zap Lifecycle.

(** [Unmarshal] fails as soon as one field fails to decode. *)
Lemma Unmarshal_error (k : Keys) (g : Settings) (c0 : Config) :
  field decodeBool g (key_debug k) (config.Debug (OtlpInf c0)) = None
  \/ field decodeUint g (key_server_port k) (config.ServerPort (OtlpInf c0))
     = None ->
  Unmarshal k g c0 = None.
Proof.
  unfold Unmarshal. intros [H | H].
  - rewrite H. reflexivity.
  - destruct (field decodeBool g (key_debug k) (config.Debug (OtlpInf c0)));
      [| reflexivity].
    cbn [mbind option_bind].
    destruct (field decodeString g (key_server_host k)
                (config.ServerHost (OtlpInf c0))); [| reflexivity].
    cbn [mbind option_bind]. rewrite H. reflexivity.
Qed.

(** X2. A variable for the port that does not read as an unsigned number, or
    one for the debug switch that does not read as a boolean, makes the
    decoding fail whatever the flags: [Run] prints the error and ends with
    status 1, before any logger exists and before the service is built,
    and nothing runs afterwards. *)
Theorem undecodable_variable_ends_run
    (ver : string) (env : Environ) (f : Flags) (svc : Service) (s : string) :
  s <> "" ->
  (env !! envName "otlp_inf.server_port" = Some s
   /\ Strconv.ParseUint s = None)
  \/ (env !! envName "otlp_inf.debug" = Some s
      /\ Strconv.ParseBool s = None) ->
  resolve ver env f = None
  /\ logger (boot ver env f svc) = None
  /\ exited (boot ver env f svc) = Some 1
  /\ trace (boot ver env f svc)
     = [Ev Main (AStderr "opentelemetry-infinity start up error (config)");
        Ev Main (AExit 1)]
  /\ forall ls st, run ver env f svc ls = Some st -> ls = [].
Proof.
  intros Hs Hbad.
  assert (Hr : resolve ver env f = None).
  { unfold resolve, resolve_with. apply Unmarshal_error. unfold field.
    destruct Hbad as [[He Hp] | [He Hp]].
    - right. change (key_server_port keys) with "otlp_inf.server_port".
      rewrite (setting_from_env env _ s (or_intror (or_intror eq_refl)) He Hs).
      unfold decodeUint. destruct (String.eqb_spec s ""); [contradiction |].
      exact Hp.
    - left. change (key_debug keys) with "otlp_inf.debug".
      rewrite (setting_from_env env _ s (or_introl eq_refl) He Hs).
      unfold decodeBool. rewrite Hp.
      destruct (String.eqb_spec s ""); [contradiction | reflexivity]. }
  split; [exact Hr |]. unfold run, boot. rewrite Hr.
  repeat split. intros ls st Hrun.
  destruct ls as [| l ls]; [reflexivity | discriminate Hrun].
Qed.

Lemma undecodable_variable_ends_run_witness :
  resolve "1.0" {[ "OTLP_INF_SERVER_PORT" := "http" ]} no_flags = None
  /\ exited (boot "1.0" {[ "OTLP_INF_DEBUG" := "yes" ]} no_flags healthy)
     = Some 1.
Proof.
  split.
  - apply (undecodable_variable_ends_run "1.0" _ no_flags healthy "http");
      [discriminate |].
    left. split; vm_compute; reflexivity.
  - apply (undecodable_variable_ends_run "1.0" _ no_flags healthy "yes");
      [discriminate |].
    right. split; vm_compute; reflexivity.
Defined.

(** X3. With no flag and none of the three variables set, the resolution
    cannot fail and gives the defaults, whatever else the environment
    holds. *)
Theorem defaults_without_variables (ver : string) (env : Environ) :
  no_variable env ->
  resolve ver env no_flags = Some (default_config ver).
Proof.
  intros (Hd & Hh & Hp).
  unfold resolve, resolve_with, Unmarshal, field.
  change (key_debug keys) with "otlp_inf.debug".
  change (key_server_host keys) with "otlp_inf.server_host".
  change (key_server_port keys) with "otlp_inf.server_port".
  rewrite (setting_without_variable env _ _ (or_introl eq_refl)
             default_of_debug Hd).
  rewrite (setting_without_variable env _ _ (or_intror (or_introl eq_refl))
             default_of_host Hh).
  rewrite (setting_without_variable env _ _ (or_intror (or_intror eq_refl))
             default_of_port Hp).
  destruct (bool_decide (is_Some (getEnv env "OTLP_INF"))); reflexivity.
Qed.

Lemma defaults_without_variables_witness :
  resolve "1.0" {[ "HOME" := "/root"; "SERVER_PORT" := "9000" ]} no_flags
  = Some (default_config "1.0").
Proof.
  apply defaults_without_variables. repeat split; vm_compute; reflexivity.
Defined.

(** X5. The one case in which the flags reach the configuration: the variable
    [OTLP_INF], parent of the three keys, is set. A key whose own variable
    is unset is then absent from the settings, and its field keeps the
    flag variable's value. *)
Theorem parent_variable_keeps_flags
    (ver : string) (env : Environ) (f : Flags) (p : string) :
  env !! "OTLP_INF" = Some p -> p <> "" ->
  no_variable env ->
  resolve ver env f = Some (flag_config ver f).
Proof.
  intros Hp Hne (Hd & Hh & Hq).
  assert (Hsh : bool_decide (is_Some (getEnv env "OTLP_INF")) = true).
  { apply bool_decide_eq_true_2. unfold getEnv.
    change (Replace "." "_" "OTLP_INF") with "OTLP_INF". rewrite Hp.
    destruct (String.eqb_spec p ""); [contradiction | eauto]. }
  unfold resolve, resolve_with, Unmarshal, field.
  change (key_debug keys) with "otlp_inf.debug".
  change (key_server_host keys) with "otlp_inf.server_host".
  change (key_server_port keys) with "otlp_inf.server_port".
  rewrite (setting_without_variable env _ _ (or_introl eq_refl)
             default_of_debug Hd).
  rewrite (setting_without_variable env _ _ (or_intror (or_introl eq_refl))
             default_of_host Hh).
  rewrite (setting_without_variable env _ _ (or_intror (or_intror eq_refl))
             default_of_port Hq).
  rewrite Hsh. reflexivity.
Qed.

Lemma parent_variable_keeps_flags_witness :
  port_of (resolve "1.0" {[ "OTLP_INF" := "x" ]}
             {| debug := None; server_host := None; server_port := Some 8080 |})
  = Some 8080.
Proof.
  rewrite (parent_variable_keeps_flags "1.0" _ _ "x");
    [reflexivity | vm_compute; reflexivity | discriminate |].
  repeat split; vm_compute; reflexivity.
Defined.

(** X4. Unless the variable [OTLP_INF] is set, the flags never reach the
    configuration: whatever the command line said, the resolved
    configuration is the one resolved with no flag at all. *)
Theorem flags_never_reach_configuration
    (ver : string) (env : Environ) (f : Flags) :
  getEnv env "OTLP_INF" = None ->
  resolve ver env f = resolve ver env no_flags.
Proof. intros Hp. exact (resolve_ignores_flags ver env f no_flags Hp). Qed.

Lemma flags_never_reach_configuration_witness :
  resolve "1.0" {[ "HOME" := "/root" ]}
    {| debug := Some true; server_host := Some "example.org";
       server_port := Some 8080 |}
  = Some (default_config "1.0").
Proof.
  rewrite flags_never_reach_configuration by (vm_compute; reflexivity).
  vm_compute. reflexivity.
Defined.

End ResolverEdges.

(** * Further properties of the lifecycle *)

Section LifecycleSteady.
Import Zap Lifecycle.

Variable svc : Service.

(** An invariant survives a whole run. *)
Lemma run_from_preserves (P : State -> Prop) :
  (forall l st st', P st -> step svc l st = Some st' -> P st') ->
  forall ls st st', P st -> run_from svc st ls = Some st' -> P st'.
Proof.
  intros Hstep ls st st' HP Hrun.
  exact (run_from_invariant svc P (fun _ => True)
           (fun l s s' _ => Hstep l s s') ls st st' (Forall_any ls) HP Hrun).
Qed.

Lemma run_from_cat (ls1 ls2 : list Label) (st st1 st2 : State) :
  run_from svc st ls1 = Some st1 ->
  run_from svc st1 ls2 = Some st2 ->
  run_from svc st (ls1 ++ ls2) = Some st2.
Proof.
  revert st. induction ls1 as [| l ls1 IH]; intros st H1 H2.
  - injection H1 as ->. exact H2.
  - cbn [run_from app] in *. destruct (step svc l st); [| discriminate].
    exact (IH _ H1 H2).
Qed.

Lemma stopped_process_stays (ls : list Label) (st st' : State) :
  is_Some (exited st) -> run_from svc st ls = Some st' -> ls = [].
Proof.
  intros [c Hc] Hrun. destruct ls as [| l ls]; [reflexivity |].
  cbn [run_from] in Hrun. unfold step, exited in *.
  destruct (mpc st); discriminate.
Qed.

(** The hand-over of the Completion Signal: the main routine is past its
    read exactly when it has read once, and then the watcher has returned
    and the buffer is empty again; before that, a watcher that has
    returned has left its value in the buffer. At most one [Stop] has seen
    the context live, and none while it is live and no signal case is at
    line 86. *)
Record handoff_inv (st : State) : Prop := {
  ho_read : count is_done_read (trace st)
            = if past_read (mpc st) then 1%nat else 0%nat;
  ho_done : if past_read (mpc st)
            then wpc st = WReturned /\ done st = None
            else if wpc st is WReturned then done st = Some true else True;
  ho_once : (count is_live_stop (trace st) <= 1)%nat;
  ho_live : if cancelled st then True
            else count is_live_stop (trace st)
                 = if wpc st is WCancel then 1%nat else 0%nat
}.

Lemma handoff_inv_step (l : Label) (st st' : State) :
  watcher_inv st -> handoff_inv st -> step svc l st = Some st' ->
  handoff_inv st'.
Proof.
  destruct st as [m w lg c sg d t]. intros [_ _ Hw] [Hr Hd Ho Hl] Hs.
  step_cases Hs; split; state_simpl; rewrite ?count_snoc;
    cbn in *; try lia; try tauto; try congruence;
    try (destruct Hd; congruence);
    try (destruct w; cbn in *; try lia; try tauto; try congruence;
         destruct Hd; congruence);
    try (destruct c; cbn in *; try lia; try tauto; congruence).
Qed.

Record steady (st : State) : Prop := {
  steady_good : good svc st;
  steady_handoff : handoff_inv st
}.

Lemma steady_step (l : Label) (st st' : State) :
  steady st -> step svc l st = Some st' -> steady st'.
Proof.
  intros [Hg Hh] Hs. split.
  - exact (good_step svc l st st' Hg Hs).
  - destruct Hg as [Hw _ _ _ _]. exact (handoff_inv_step l st st' Hw Hh Hs).
Qed.

Lemma steady_boot (ver : string) (env : Viper.Environ) (f : Resolver.Flags) :
  steady (boot ver env f svc).
Proof.
  split; [apply good_boot |].
  unfold boot. destruct (Resolver.resolve ver env f) as [cfg |];
    [destruct (New_err svc) |]; split; cbn; auto.
Qed.

Lemma steady_run (ver : string) (env : Viper.Environ) (f : Resolver.Flags)
    (ls : list Label) (st : State) :
  run ver env f svc ls = Some st -> steady st.
Proof.
  intros Hrun.
  exact (run_from_preserves steady steady_step ls _ st
           (steady_boot ver env f) Hrun).
Qed.

End LifecycleSteady.

Section LifecycleExtras.
Import Zap Lifecycle Resolver.

(** X7. When [otlpinf.New] fails, [Run] logs the error and ends with status 1
    at line 71: the service was handed the resolved configuration, [Start]
    and [Stop] are never called, no signal handler is installed, and
    nothing runs afterwards. *)
Theorem failed_construction_ends_run
    (ver : string) (env : Viper.Environ) (f : Flags) (svc : Service)
    (c : config.Config) (e : string) (ls : list Label) (st : State) :
  resolve ver env f = Some c ->
  New_err svc = Some e ->
  run ver env f svc ls = Some st ->
  ls = []
  /\ exited st = Some 1
  /\ trace st = [Ev Main (ANew c);
                 Ev Main (ALog ErrorLevel "otlpinf start up error");
                 Ev Main (AExit 1)].
Proof.
  intros Hr Hn Hrun. unfold run, boot in Hrun. rewrite Hr, Hn in Hrun.
  destruct ls as [| l ls]; [| discriminate Hrun].
  injection Hrun as <-. repeat split.
Qed.

Lemma failed_construction_ends_run_witness :
  exists st, run "1.0" ∅ no_flags unbuildable [] = Some st
             /\ exited st = Some 1
             /\ existsb is_start_call (trace st) = false.
Proof.
  destruct (run "1.0" ∅ no_flags unbuildable []) as [st |] eqn:H;
    [| vm_compute in H; discriminate].
  assert (Hr : resolve "1.0" ∅ no_flags = Some (default_config "1.0"))
    by (vm_compute; reflexivity).
  assert (Hn : New_err unbuildable = Some "invalid configuration")
    by reflexivity.
  destruct (failed_construction_ends_run _ _ _ _ _ _ _ _ Hr Hn H)
    as (_ & Hx & Ht).
  exists st. split; [reflexivity |]. split; [exact Hx |].
  rewrite Ht. reflexivity.
Defined.

(** X14. A clean exit means the shutdown is complete: the root context is
    cancelled, the watcher has returned, the Completion Signal was written
    once and read once and its buffer is empty, [Start] had returned nil,
    the deferred [Sync] has run and the exit is the last event. *)
Theorem clean_exit_means_shutdown_done
    (ver : string) (env : Viper.Environ) (f : Flags) (svc : Service)
    (ls : list Label) (st : State) :
  run ver env f svc ls = Some st ->
  exited st = Some 0 ->
  cancelled st = true
  /\ wpc st = WReturned
  /\ count is_done_write (trace st) = 1%nat
  /\ count is_done_read (trace st) = 1%nat
  /\ done st = None
  /\ existsb is_start_error (trace st) = false
  /\ existsb is_sync (trace st) = true
  /\ last (trace st) = Some (Ev Main (AExit 0)).
Proof.
  intros Hrun Hex.
  destruct (steady_run svc ver env f ls st Hrun)
    as [[[Hc Hk _] _ [Hy _ Hl] [Hf _] _] [Hr Hd _ _]].
  unfold exited in Hex.
  destruct (mpc st) as [| | | | | | | | []]; try discriminate Hex.
  cbn in Hr, Hd, Hy, Hl, Hf. destruct Hd as [Hw Hd].
  rewrite Hw in Hc, Hk. cbn in Hk. auto 10.
Qed.

Lemma clean_exit_means_shutdown_done_witness :
  exists st, run "1.0" ∅ no_flags healthy one_signal = Some st
             /\ cancelled st = true
             /\ count is_done_read (trace st) = 1%nat.
Proof.
  destruct (run "1.0" ∅ no_flags healthy one_signal) as [st |] eqn:H;
    [| vm_compute in H; discriminate].
  assert (Hx : exited st = Some 0).
  { pose proof H as H'. vm_compute in H'. injection H' as <-. reflexivity. }
  destruct (clean_exit_means_shutdown_done _ _ _ _ _ _ H Hx)
    as (Hc & _ & _ & Hr & _).
  exists st. split; [reflexivity |]. split; assumption.
Defined.

(** Without a signal the context is cancelled only by the service. *)
Lemma uncancelled_step (svc : Service) (l : Label) (st st' : State) :
  Start_cancels svc = false -> is_relay l = false ->
  no_signal_inv st /\ cancelled st = false ->
  step svc l st = Some st' ->
  no_signal_inv st' /\ cancelled st' = false.
Proof.
  intros Hsc Hl [Hn Hc] Hs. split;
    [exact (no_signal_inv_step svc l st st' Hl Hn Hs) |].
  destruct Hn as [_ Hcase _]. destruct st as [m w lg c sg d t].
  cbn in Hc, Hcase. subst c.
  step_cases Hs; cbn in *; congruence.
Qed.

(** X10. The service runs until it is told to stop: as long as no signal is
    relayed and the service does not cancel the context itself, the root
    context stays live, [Stop] is never called, the Completion Signal is
    never written and [Run] does not return. *)
Theorem runs_until_signalled
    (ver : string) (env : Viper.Environ) (f : Flags) (svc : Service)
    (ls : list Label) (st : State) :
  Start_cancels svc = false ->
  forallb (fun l => negb (is_relay l)) ls = true ->
  run ver env f svc ls = Some st ->
  cancelled st = false
  /\ existsb is_stop (trace st) = false
  /\ count is_done_write (trace st) = 0%nat
  /\ exited st <> Some 0.
Proof.
  intros Hsc Hls Hrun.
  assert (HL : Forall (fun l => is_relay l = false) ls).
  { apply List.Forall_forall. intros l Hin.
    rewrite forallb_forall in Hls. apply negb_true_iff, Hls, Hin. }
  assert (H0 : no_signal_inv (boot ver env f svc)
               /\ cancelled (boot ver env f svc) = false).
  { split; [apply no_signal_boot |]. unfold boot.
    destruct (resolve ver env f); [destruct (New_err svc) |]; reflexivity. }
  destruct (run_from_invariant svc
              (fun s => no_signal_inv s /\ cancelled s = false) _
              (fun l s s' Hl => uncancelled_step svc l s s' Hsc Hl)
              ls _ st HL H0 Hrun) as [[_ _ Hstop] Hc].
  split; [exact Hc |]. split; [exact Hstop |].
  destruct (good_run svc ver env f ls st Hrun) as [[Hcount Hk _] _ _ _ _].
  assert (Hw : wpc st <> WReturned).
  { intros E. rewrite E in Hk. cbn in Hk. congruence. }
  split.
  - rewrite Hcount. destruct (wpc st); try reflexivity. contradiction.
  - intros Hx.
    destruct (clean_exit_means_shutdown_done _ _ _ _ _ _ Hrun Hx) as [Hc' _].
    congruence.
Qed.

Lemma runs_until_signalled_witness :
  exists st, run "1.0" ∅ no_flags healthy startup = Some st
             /\ cancelled st = false /\ exited st <> Some 0.
Proof.
  destruct (run "1.0" ∅ no_flags healthy startup) as [st |] eqn:H;
    [| vm_compute in H; discriminate].
  assert (Hsc : Start_cancels healthy = false) by reflexivity.
  assert (Hls : forallb (fun l => negb (is_relay l)) startup = true)
    by reflexivity.
  destruct (runs_until_signalled _ _ _ _ _ _ Hsc Hls H)
    as (Hc & _ & _ & Hx).
  exists st. split; [reflexivity |]. split; assumption.
Defined.

(** One step answers at most the signals it was given. *)
Lemma stops_step (svc : Service) (l : Label) (st st' : State) :
  step svc l st = Some st' ->
  (count is_stop (trace st') + pending st'
   <= count is_stop (trace st) + pending st + (if is_relay l then 1 else 0))%nat.
Proof.
  destruct st as [m w lg c sg d t]. intros Hs. unfold pending.
  step_cases Hs; rewrite ?count_snoc; cbn; try lia;
    destruct w; cbn; lia.
Qed.

Lemma stops_run_from (svc : Service) (ls : list Label) (st st' : State) :
  run_from svc st ls = Some st' ->
  (count is_stop (trace st') + pending st'
   <= count is_stop (trace st) + pending st + relays ls)%nat.
Proof.
  revert st. induction ls as [| l ls IH]; intros st Hrun.
  - injection Hrun as <-. unfold relays. cbn. lia.
  - cbn [run_from] in Hrun.
    destruct (step svc l st) as [st1 |] eqn:Hs; [| discriminate].
    pose proof (stops_step svc l st st1 Hs) as H1.
    pose proof (IH st1 Hrun) as H2.
    unfold relays in *. cbn [List.filter].
    destruct (is_relay l); cbn [length]; lia.
Qed.

(** X11. [Stop] is called at most once per relayed signal: the calls made so
    far and the signals still waiting for theirs never exceed the signals
    relayed. *)
Theorem stops_bounded_by_signals
    (ver : string) (env : Viper.Environ) (f : Flags) (svc : Service)
    (ls : list Label) (st : State) :
  run ver env f svc ls = Some st ->
  (count is_stop (trace st) + pending st <= relays ls)%nat.
Proof.
  intros Hrun. pose proof (stops_run_from svc ls _ st Hrun) as H.
  assert (H0 : count is_stop (trace (boot ver env f svc)) = 0%nat
               /\ pending (boot ver env f svc) = 0%nat).
  { unfold boot. destruct (resolve ver env f); [destruct (New_err svc) |];
      split; reflexivity. }
  destruct H0 as [E1 E2]. rewrite E1, E2 in H. exact H.
Qed.

Lemma stops_bounded_by_signals_witness :
  exists st, run "1.0" ∅ no_flags healthy two_signals = Some st
             /\ (count is_stop (trace st) <= 2)%nat.
Proof.
  destruct (run "1.0" ∅ no_flags healthy two_signals) as [st |] eqn:H;
    [| vm_compute in H; discriminate].
  exists st. split; [reflexivity |].
  pose proof (stops_bounded_by_signals _ _ _ _ _ _ H) as Hb.
  change (relays two_signals) with 2%nat in Hb. lia.
Defined.

(** X12. However many signals arrive, at most one [Stop] is called with the
    root context live: the cancellation of line 86 follows each call
    before the next signal is taken. *)
Theorem at_most_one_live_stop
    (ver : string) (env : Viper.Environ) (f : Flags) (svc : Service)
    (ls : list Label) (st : State) :
  run ver env f svc ls = Some st ->
  (count is_live_stop (trace st) <= 1)%nat
  /\ (count is_live_stop (trace st) = 1%nat ->
      cancelled st = true \/ wpc st = WCancel).
Proof.
  intros Hrun.
  destruct (steady_run svc ver env f ls st Hrun) as [_ [_ _ Ho Hl]].
  split; [exact Ho |]. intros H1.
  destruct (cancelled st); [left; reflexivity | right].
  rewrite H1 in Hl. destruct (wpc st); try discriminate Hl. reflexivity.
Qed.

Lemma at_most_one_live_stop_witness :
  exists st, run "1.0" ∅ no_flags healthy two_signals = Some st
             /\ count is_stop (trace st) = 2%nat
             /\ (count is_live_stop (trace st) <= 1)%nat.
Proof.
  destruct (run "1.0" ∅ no_flags healthy two_signals) as [st |] eqn:H;
    [| vm_compute in H; discriminate].
  exists st. split; [reflexivity |]. split.
  - pose proof H as H'. vm_compute in H'. injection H' as <-. reflexivity.
  - exact (proj1 (at_most_one_live_stop _ _ _ _ _ _ H)).
Defined.

End LifecycleExtras.

(** One candidate schedule for a goal [exists ls st', ... /\ run_from svc st
    ls = Some st' /\ ...] from a state given by its fields. *)
Ltac attempt ls :=
  exists ls; forced_steps; eexists;
  split; [first [reflexivity | cbn; lia] |];
  split; [reflexivity |];
  first [ split; reflexivity | eexists; reflexivity ].

Section LifecycleProgress.
Import Zap Lifecycle Resolver.

Variable svc : Service.

Lemma relays_app (ls1 ls2 : list Label) :
  relays (ls1 ++ ls2) = (relays ls1 + relays ls2)%nat.
Proof. unfold relays. rewrite List.filter_app, length_app. reflexivity. Qed.

(** The watcher can always be brought to cancel the root context, with
    one signal at most. *)
Lemma reach_cancelled (st : State) :
  steady svc st -> exited st = None ->
  exists ls st1,
    (relays ls <= 1)%nat /\ run_from svc st ls = Some st1
    /\ cancelled st1 = true /\ exited st1 = None.
Proof.
  intros [[[_ Hk _] _ _ _ _] _] Hex.
  destruct st as [m w lg c sg d t]. cbn in Hk, Hex.
  destruct m; try discriminate Hex;
    (destruct c; [attempt (@nil Label) |]);
    destruct w; try discriminate Hk; destruct sg;
    first [ attempt [LWatch]
          | attempt [LWatch; LWatch]
          | attempt [LWatch; LWatch; LWatch]
          | attempt [LRelay SIGINT; LSelectSig; LWatch; LWatch; LWatch]
          | attempt [LWatch; LRelay SIGINT; LSelectSig; LWatch; LWatch; LWatch] ].
Qed.

(** Once the context is cancelled the watcher can always return. *)
Lemma reach_returned (st : State) :
  steady svc st -> cancelled st = true -> exited st = None ->
  exists ls st2,
    relays ls = 0%nat /\ run_from svc st ls = Some st2
    /\ wpc st2 = WReturned /\ exited st2 = None.
Proof.
  intros [[[_ _ Hd] _ _ _ _] _] Hc Hex.
  destruct st as [m w lg c sg d t]. cbn in Hd, Hc, Hex. subst c.
  destruct m; try discriminate Hex; destruct w; cbn in Hd; subst;
    first [ attempt (@nil Label)
          | attempt [LWatch]
          | attempt [LWatch; LWatch]
          | attempt [LSelectDone; LWatch; LWatch]
          | attempt [LWatch; LSelectDone; LWatch; LWatch]
          | attempt [LWatch; LWatch; LSelectDone; LWatch; LWatch]
          | attempt [LWatch; LWatch; LWatch; LSelectDone; LWatch; LWatch] ].
Qed.

(** Once the watcher has returned the main routine can always run to the
    end of the process. *)
Lemma reach_exit (st : State) :
  steady svc st -> wpc st = WReturned -> exited st = None ->
  exists ls st3,
    relays ls = 0%nat /\ run_from svc st ls = Some st3
    /\ is_Some (exited st3).
Proof.
  intros [[[_ Hk _] _ _ _ _] [_ Hd _ _]] Hw Hex.
  destruct st as [m w lg c sg d t]. cbn in Hk, Hd, Hw, Hex. subst w.
  cbn in Hk. subst c. destruct svc as [ne sc sb se].
  destruct m; try discriminate Hex; cbn in Hd;
    (lazymatch type of Hd with
     | _ /\ _ => destruct Hd as [_ Hd]
     | _ => idtac
     end); subst d;
    destruct sc, sb, se;
    first [ attempt [LMain]
          | attempt [LMain; LMain]
          | attempt [LMain; LMain; LMain]
          | attempt [LMain; LMain; LMain; LMain]
          | attempt [LMain; LMain; LMain; LMain; LMain]
          | attempt [LMain; LMain; LMain; LMain; LMain; LMain] ].
Qed.

End LifecycleProgress.

Section LifecycleProgressTheorem.
Import Zap Lifecycle Resolver.

(** X16. No reachable state is a dead end: as long as the process is alive, a
    continuation of the schedule with at most one more signal ends it. *)
Theorem shutdown_always_possible
    (ver : string) (env : Viper.Environ) (f : Flags) (svc : Service)
    (ls : list Label) (st : State) :
  run ver env f svc ls = Some st ->
  exited st = None ->
  exists ls' st',
    (relays ls' <= 1)%nat
    /\ run_from svc st ls' = Some st'
    /\ is_Some (exited st').
Proof.
  intros Hrun Hex.
  pose proof (steady_run svc ver env f ls st Hrun) as H0.
  destruct (reach_cancelled svc st H0 Hex) as (lsA & st1 & HrA & HA & Hc & Hx1).
  pose proof (run_from_preserves svc (steady svc) (steady_step svc)
                lsA st st1 H0 HA) as H1.
  destruct (reach_returned svc st1 H1 Hc Hx1)
    as (lsB & st2 & HrB & HB & Hw & Hx2).
  pose proof (run_from_preserves svc (steady svc) (steady_step svc)
                lsB st1 st2 H1 HB) as H2.
  destruct (reach_exit svc st2 H2 Hw Hx2) as (lsC & st3 & HrC & HC & Hx3).
  exists (lsA ++ lsB ++ lsC)%list, st3. split; [| split; [| exact Hx3]].
  - rewrite !relays_app. lia.
  - exact (run_from_cat svc _ _ _ _ _ HA (run_from_cat svc _ _ _ _ _ HB HC)).
Qed.

Lemma shutdown_always_possible_witness :
  exists st ls' st',
    run "1.0" ∅ no_flags blocking signal_while_blocked = Some st
    /\ run_from blocking st ls' = Some st'
    /\ is_Some (exited st').
Proof.
  destruct (run "1.0" ∅ no_flags blocking signal_while_blocked)
    as [st |] eqn:H; [| vm_compute in H; discriminate].
  assert (Hx : exited st = None).
  { pose proof H as H'. vm_compute in H'. injection H' as <-. reflexivity. }
  destruct (shutdown_always_possible _ _ _ _ _ _ H Hx)
    as (ls' & st' & _ & Hrun & Hex).
  exists st, ls', st'. split; [reflexivity |]. split; assumption.
Defined.

End LifecycleProgressTheorem.

Section LifecycleRecords.
Import Zap Lifecycle Resolver.

(** The logger does not change while the routines run, and they log at
    Warn and Error only. *)
Definition logged_inv (lv : Level) (st : State) : Prop :=
  (exited st = None -> logger st = Some lv)
  /\ Forall (fun e => match act e with
                      | ALog l _ =>
                          logger st = Some lv
                          /\ (l = WarnLevel \/ l = ErrorLevel)
                      | _ => True
                      end) (trace st).

Lemma logged_inv_step (svc : Service) (lv : Level) (l : Label) (st st' : State) :
  logged_inv lv st -> step svc l st = Some st' -> logged_inv lv st'.
Proof.
  destruct st as [m w lg c sg d t]. intros [Hlg Ht] Hs. cbn in Hlg, Ht.
  assert (E : lg = Some lv).
  { apply Hlg. unfold exited. cbn. unfold step in Hs. cbn in Hs.
    destruct m; try reflexivity. discriminate Hs. }
  subst lg.
  step_cases Hs; (split; [intros _; reflexivity |]); cbn; auto;
    apply Forall_app; (split; [exact Ht |]);
    (constructor; [| constructor]); cbn; auto.
Qed.

(** X9. Every record the coordinator logs is emitted, whatever the debug
    flag: the records are at Warn or Error and the logger [Run] built is
    at Debug or Info. *)
Theorem coordinator_records_are_emitted
    (ver : string) (env : Viper.Environ) (f : Flags) (svc : Service)
    (ls : list Label) (st : State) (r : Routine) (l : Level) (msg : string) :
  run ver env f svc ls = Some st ->
  In (Ev r (ALog l msg)) (trace st) ->
  logger st = Some (Logger.atomicLevel f)
  /\ Enabled (Logger.atomicLevel f) l = true.
Proof.
  intros Hrun Hin.
  assert (H0 : logged_inv (Logger.atomicLevel f) (boot ver env f svc)).
  { unfold boot. destruct (resolve ver env f) as [c |];
      [destruct (New_err svc) |]; split; cbn;
      try (intros H; try reflexivity; discriminate H);
      repeat (constructor; cbn; auto). }
  destruct (run_from_preserves svc (logged_inv (Logger.atomicLevel f))
              (logged_inv_step svc (Logger.atomicLevel f))
              ls _ st H0 Hrun) as [_ Ht].
  rewrite List.Forall_forall in Ht. specialize (Ht _ Hin). cbn in Ht.
  destruct Ht as [Hlg Hl]. split; [exact Hlg |].
  unfold Logger.atomicLevel. destruct (Debug f), Hl as [-> | ->]; reflexivity.
Qed.

Lemma coordinator_records_are_emitted_witness :
  Enabled (Logger.atomicLevel no_flags) WarnLevel = true.
Proof.
  destruct (run "1.0" ∅ no_flags healthy one_signal) as [st |] eqn:H;
    [| vm_compute in H; discriminate].
  assert (Hin : In (Ev Watcher (ALog WarnLevel "mainRoutine context cancelled"))
                   (trace st)).
  { pose proof H as H'. vm_compute in H'. injection H' as <-. cbn. auto 10. }
  exact (proj2 (coordinator_records_are_emitted _ _ _ _ _ _ _ _ _ H Hin)).
Defined.

(** The trace starts with the one construction of the service. *)
Definition built_inv (c : config.Config) (st : State) : Prop :=
  exists rest, trace st = Ev Main (ANew c) :: rest
               /\ existsb is_new rest = false.

Lemma built_inv_step (svc : Service) (c : config.Config) (l : Label)
    (st st' : State) :
  built_inv c st -> step svc l st = Some st' -> built_inv c st'.
Proof.
  destruct st as [m w lg k sg d t]. intros (rest & Ht & Hn) Hs.
  cbn in Ht. subst t. unfold built_inv.
  step_cases Hs;
    first [ exists rest; split; [reflexivity | exact Hn]
          | eexists; split; [rewrite <- app_comm_cons; reflexivity |];
            rewrite existsb_snoc, Hn; reflexivity ].
Qed.

(** X8. The service is built exactly once, as the first thing [Run]
    does after resolving, and from the configuration the resolver
    produced. *)
Theorem service_built_once_from_resolved_configuration
    (ver : string) (env : Viper.Environ) (f : Flags) (svc : Service)
    (c : config.Config) (ls : list Label) (st : State) :
  resolve ver env f = Some c ->
  run ver env f svc ls = Some st ->
  exists rest, trace st = Ev Main (ANew c) :: rest
               /\ existsb is_new rest = false.
Proof.
  intros Hr Hrun.
  assert (H0 : built_inv c (boot ver env f svc)).
  { unfold boot. rewrite Hr. destruct (New_err svc); eexists; split;
      reflexivity. }
  exact (run_from_preserves svc (built_inv c) (built_inv_step svc c)
           ls _ st H0 Hrun).
Qed.

Lemma service_built_once_from_resolved_configuration_witness :
  exists st rest,
    run "1.0" {[ "OTLP_INF_SERVER_PORT" := "9000" ]} no_flags healthy one_signal
    = Some st
    /\ trace st
       = Ev Main (ANew {| config.Version := "1.0";
                          config.OtlpInf :=
                            {| config.Debug := false;
                               config.ServerHost := "localhost";
                               config.ServerPort := 9000 |} |}) :: rest.
Proof.
  set (env := ({[ "OTLP_INF_SERVER_PORT" := "9000" ]} : Viper.Environ)).
  destruct (run "1.0" env no_flags healthy one_signal) as [st |] eqn:H;
    [| vm_compute in H; discriminate].
  assert (Hr : resolve "1.0" env no_flags
               = Some {| config.Version := "1.0";
                         config.OtlpInf :=
                           {| config.Debug := false;
                              config.ServerHost := "localhost";
                              config.ServerPort := 9000 |} |})
    by (vm_compute; reflexivity).
  destruct (service_built_once_from_resolved_configuration
              _ _ _ _ _ _ _ Hr H) as (rest & Ht & _).
  exists st, rest. split; [reflexivity | exact Ht].
Defined.

End LifecycleRecords.

Section EmptyVariables.
Import Bytes Viper Mapstructure config Resolver.

Lemma getEnv_empty (env : Environ) (n key : string) :
  getEnv (<[n := ""]> env) key = getEnv (delete n env) key.
Proof.
  unfold getEnv. destruct (decide (n = Replace "." "_" key)) as [-> | Hne].
  - rewrite lookup_insert_eq, lookup_delete_eq. reflexivity.
  - rewrite lookup_insert_ne, lookup_delete_ne by exact Hne. reflexivity.
Qed.

Lemma Get_empty (env : Environ) (n : string) (d : Settings) (key : string) :
  Get (<[n := ""]> env) d key = Get (delete n env) d key.
Proof.
  unfold Get, isPathShadowedInAutoEnv. rewrite getEnv_empty.
  replace (existsb _ (parentKeys key))
    with (existsb (fun p => bool_decide
                    (is_Some (getEnv (delete n env) (mergeWithEnvPrefix p))))
                  (parentKeys key)); [reflexivity |].
  induction (parentKeys key) as [| p ps IH]; [reflexivity |].
  cbn [existsb]. rewrite IH, getEnv_empty. reflexivity.
Qed.

(** X6. A variable set to the empty string counts as not set at all, for the
    three keys and for their parent alike. *)
Theorem empty_variable_is_unset
    (ver : string) (env : Environ) (f : Flags) (n : string) :
  resolve ver (<[n := ""]> env) f = resolve ver (delete n env) f.
Proof.
  unfold resolve, resolve_with, initConfig, AllSettings.
  replace (map_imap (fun k _ => Get (<[n := ""]> env) defaults k) defaults)
    with (map_imap (fun k (_ : Value) => Get (delete n env) defaults k) defaults);
    [reflexivity |].
  apply map_eq. intros k. rewrite !map_lookup_imap.
  destruct (defaults !! k); [| reflexivity]. cbn [mbind option_bind].
  symmetry. apply Get_empty.
Qed.

End EmptyVariables.

Section LifecycleCauses.
Import Zap Lifecycle Resolver.

(** With a service that leaves the cancel function alone, a cancelled root
    context means a [Stop] has seen it live. *)
Definition stop_first_inv (svc : Service) (st : State) : Prop :=
  steady svc st
  /\ (cancelled st = true -> count is_live_stop (trace st) = 1%nat).

Lemma stop_first_inv_step (svc : Service) (l : Label) (st st' : State) :
  Start_cancels svc = false ->
  stop_first_inv svc st -> step svc l st = Some st' -> stop_first_inv svc st'.
Proof.
  intros Hsc [Hs Hc] Hstep. split; [exact (steady_step svc l st st' Hs Hstep) |].
  destruct Hs as [_ [_ _ _ Hl]]. destruct st as [m w lg c sg d t].
  cbn -[count] in Hc, Hl.
  step_cases Hstep; rewrite ?count_snoc; cbn -[count] in *;
    try congruence; intros E; try destruct c; cbn -[count] in *;
    try discriminate E; try specialize (Hc eq_refl); lia.
Qed.

(** X13. [Stop] comes before the cancellation, whatever the number of signals:
    with a service that does not cancel the root context itself, the
    context is cancelled only after exactly one [Stop] was called with it
    still live. *)
Theorem cancellation_follows_live_stop
    (ver : string) (env : Viper.Environ) (f : Flags) (svc : Service)
    (ls : list Label) (st : State) :
  Start_cancels svc = false ->
  run ver env f svc ls = Some st ->
  cancelled st = true ->
  count is_live_stop (trace st) = 1%nat.
Proof.
  intros Hsc Hrun.
  assert (H0 : stop_first_inv svc (boot ver env f svc)).
  { split; [apply steady_boot |]. unfold boot.
    destruct (resolve ver env f); [destruct (New_err svc) |];
      intros H; discriminate H. }
  exact (proj2 (run_from_preserves svc (stop_first_inv svc)
                  (fun l s s' => stop_first_inv_step svc l s s' Hsc)
                  ls _ st H0 Hrun)).
Qed.

Lemma cancellation_follows_live_stop_witness :
  exists st, run "1.0" ∅ no_flags healthy two_signals = Some st
             /\ count is_stop (trace st) = 2%nat
             /\ count is_live_stop (trace st) = 1%nat.
Proof.
  destruct (run "1.0" ∅ no_flags healthy two_signals) as [st |] eqn:H;
    [| vm_compute in H; discriminate].
  assert (Hc : cancelled st = true /\ count is_stop (trace st) = 2%nat).
  { pose proof H as H'. vm_compute in H'. injection H' as <-.
    split; reflexivity. }
  destruct Hc as [Hc Hn].
  assert (Hsc : Start_cancels healthy = false) by reflexivity.
  exists st. split; [reflexivity |]. split; [exact Hn |].
  exact (cancellation_follows_live_stop _ _ _ _ _ _ Hsc H Hc).
Defined.

(** Where the main routine is tells what has failed. *)
Definition cause_inv (ver : string) (env : Viper.Environ) (f : Flags)
    (svc : Service) (st : State) : Prop :=
  match mpc st with
  | MHalted ExConfigError => resolve ver env f = None
  | MHalted ExNewError => is_Some (New_err svc)
  | MLogErr | MOsExit | MHalted ExStartError =>
      is_Some (Start_err svc) /\ existsb is_start_error (trace st) = true
  | _ => True
  end.

Lemma cause_inv_step (ver : string) (env : Viper.Environ) (f : Flags)
    (svc : Service) (l : Label) (st st' : State) :
  cause_inv ver env f svc st -> step svc l st = Some st' ->
  cause_inv ver env f svc st'.
Proof.
  destruct st as [m w lg c sg d t]. unfold cause_inv. intros Hc Hs.
  step_cases Hs; rewrite ?existsb_snoc; try exact I; try exact Hc;
    lazymatch type of Hc with
    | _ /\ _ =>
        destruct Hc as [Hc1 Hc2]; split; [exact Hc1 | rewrite Hc2; reflexivity]
    | _ =>
        split; [eauto | apply orb_true_r]
    end.
Qed.

(** X15. Status 1 has one of three causes: the configuration did not decode,
    [New] returned an error, or [Start] returned an error. A run in which
    none of them happens can only end with status 0. *)
Theorem status_one_has_a_cause
    (ver : string) (env : Viper.Environ) (f : Flags) (svc : Service)
    (ls : list Label) (st : State) :
  run ver env f svc ls = Some st ->
  exited st = Some 1 ->
  resolve ver env f = None
  \/ is_Some (New_err svc)
  \/ (is_Some (Start_err svc) /\ existsb is_start_error (trace st) = true).
Proof.
  intros Hrun Hex.
  assert (H0 : cause_inv ver env f svc (boot ver env f svc)).
  { unfold boot, cause_inv.
    destruct (resolve ver env f) as [c |] eqn:Hr;
      [destruct (New_err svc) eqn:Hn |]; cbn; eauto. }
  pose proof (run_from_preserves svc (cause_inv ver env f svc)
                (cause_inv_step ver env f svc) ls _ st H0 Hrun) as Hc.
  unfold cause_inv in Hc. unfold exited in Hex.
  destruct (mpc st) as [| | | | | | | | []]; try discriminate Hex; auto.
Qed.

Lemma status_one_has_a_cause_witness :
  resolve "1.0" ∅ no_flags = None
  \/ is_Some (New_err failing)
  \/ is_Some (Start_err failing).
Proof.
  destruct (run "1.0" ∅ no_flags failing startup_failure) as [st |] eqn:H;
    [| vm_compute in H; discriminate].
  assert (Hx : exited st = Some 1).
  { pose proof H as H'. vm_compute in H'. injection H' as <-. reflexivity. }
  destruct (status_one_has_a_cause _ _ _ _ _ _ H Hx) as [Hc | [Hc | [Hc _]]];
    auto.
Defined.

End LifecycleCauses.
